(** * NewsEncoder (src/model/news_encoder.py)

    A shallow embedding of the [NewsEncoder] class: its constructor
    [__init__], its [forward] method and its [embed_dim] property.

    The class is glue code around torch and transformers.  The tensor
    library is an interface here ([Torch], with the shape contracts of the
    operations in [TorchLaws]).  The layers that [__init__] builds are
    descriptors ([nnModule]) recording the arguments the source passes to
    the layer constructors; each constructor call goes to the library
    ([Constructors]), which may raise: [__init__] stops at the first
    exception, its own or the library's, in the order of the source.
    Calling a layer in [forward] is an external call, interpreted by a
    [Backend] that owns the weights, the random state of dropout and the
    right to raise; what a layer returns on good input is a contract
    ([BackendLaws]) about layers that the library built, of positive
    sizes, on tensors that are not empty. *)

From Stdlib Require Import String ZArith NArith List Bool Lia.
Import ListNotations.
Local Open Scope Z_scope.

(** ** Python values and exceptions *)

Inductive exn : Type :=
| AssertionError
| AttributeError
| IndexError
| TypeError
| ValueError
| RuntimeError.

Inductive result (A : Type) : Type :=
| OK (a : A)
| Raised (e : exn).
Arguments OK {A} a.
Arguments Raised {A} e.

Definition rbind {A B : Type} (r : result A) (f : A -> result B) : result B :=
  match r with
  | OK a => f a
  | Raised e => Raised e
  end.

Declare Scope result_scope.
Delimit Scope result_scope with result.
Notation "x <- r ;; k" := (rbind r (fun x => k))
  (at level 61, r at next level, right associativity) : result_scope.
Notation "' p <- r ;; k" := (rbind r (fun p => k))
  (at level 61, p pattern, r at next level, right associativity) : result_scope.

(** [assert x is not None], giving the value that is there. *)
Definition assert_not_None {A : Type} (x : option A) : result A :=
  match x with
  | Some a => OK a
  | None => Raised AssertionError
  end.

(** [l[i]] on a tuple. *)
Definition getitem {A : Type} (l : list A) (i : nat) : result A :=
  match nth_error l i with
  | Some a => OK a
  | None => Raised IndexError
  end.

(** ** The tensor library *)

(** What the source uses of torch tensors: the shape, the slice
    [t[:, 0, :]], [t.transpose(1, 2).contiguous()], [torch.stack(ts, dim=1)]
    and [torch.ones((b, n), dtype=torch.bool)]. *)
Class Torch : Type := {
  Tensor : Type;
  pyfloat : Type;
  shape : Tensor -> list Z;
  select_first : Tensor -> result Tensor;
  transpose_1_2 : Tensor -> result Tensor;
  stack_dim1 : list Tensor -> result Tensor;
  ones_bool : Z -> Z -> Tensor
}.

(** The shape contracts of these operations, on tensors as torch has
    them: no dimension is negative.  [ones_bool] is specified on sizes
    that are not negative; [forward] passes it two dimensions of a
    tensor. *)
Class TorchLaws (T : Torch) : Prop := {
  shape_nonneg : forall t, Forall (fun d => 0 <= d) (shape t);
  select_first_shape : forall t b l d,
    shape t = [b; l; d] -> 0 < l ->
    exists t', select_first t = OK t' /\ shape t' = [b; d];
  transpose_1_2_shape : forall t b l d,
    shape t = [b; l; d] ->
    exists t', transpose_1_2 t = OK t' /\ shape t' = [b; d; l];
  stack_dim1_shape : forall ts b d,
    ts <> [] -> Forall (fun t => shape t = [b; d]) ts ->
    exists t', stack_dim1 ts = OK t' /\ shape t' = [b; Z.of_nat (length ts); d];
  ones_bool_shape : forall b n,
    0 <= b -> 0 <= n -> shape (ones_bool b n) = [b; n]
}.

(** [RobertaConfig]: the source reads [hidden_size] only. *)
Record RobertaConfig : Type := { hidden_size : Z }.

(** The layers the constructor builds, with the arguments it passes. *)
#[warnings="-register-all"]
Inductive nnModule {T : Torch} : Type :=
| RobertaModel (config : RobertaConfig)
| Linear (in_features out_features : Z)
| Dropout (p : pyfloat)
| Conv1d_same (in_channels out_channels kernel_size : Z)
| AdditiveAttention (query_dim embed_dim : Z)
| Embedding (num_embeddings embedding_dim padding_idx : Z)
| Embedding_from_pretrained (embeddings : Tensor) (freeze : bool) (padding_idx : Z)
| ReLU
| Sequential (layers : list nnModule).

(** ** The constructor's arguments *)

Module Args.
Record t {T : Torch} : Type := {
  config : RobertaConfig;
  apply_reduce_dim : bool;
  use_cls_embed : bool;
  use_sapo : bool;
  use_category : bool;
  category_pad_token_id : Z;
  query_dim : Z;
  dropout : pyfloat;
  category_embed_dim : option Z;
  category_embed : option Tensor;
  num_category : option Z;
  num_cnn_filters : option Z;
  window_size : option Z;
  word_embed_dim : option Z
}.

Definition with_category_embed_dim {T : Torch} (a : t) (d : option Z) : t :=
  {| config := config a;
     apply_reduce_dim := apply_reduce_dim a;
     use_cls_embed := use_cls_embed a;
     use_sapo := use_sapo a;
     use_category := use_category a;
     category_pad_token_id := category_pad_token_id a;
     query_dim := query_dim a;
     dropout := dropout a;
     category_embed_dim := d;
     category_embed := category_embed a;
     num_category := num_category a;
     num_cnn_filters := num_cnn_filters a;
     window_size := window_size a;
     word_embed_dim := word_embed_dim a |}.
End Args.

(** ** The encoder object *)

(** [self] after [__init__]: an attribute that the constructor did not set
    is [None] here, and reading it is an [AttributeError]. *)
Record NewsEncoder {T : Torch} : Type := {
  roberta : nnModule;
  apply_reduce_dim : bool;
  reduce_dim : option nnModule;
  word_embed_dropout : option nnModule;
  _embed_dim : Z;
  use_cls_embed : bool;
  use_sapo : bool;
  use_category : bool;
  title_cnn : option nnModule;
  title_dropout : option nnModule;
  title_additive_attn : option nnModule;
  sapo_cnn : option nnModule;
  sapo_dropout : option nnModule;
  sapo_additive_attn : option nnModule;
  category_embedding : option nnModule;
  category_dense_layer : option nnModule;
  attn_pooling : option nnModule
}.

(** The [embed_dim] property. *)
Definition embed_dim {T : Torch} (self : NewsEncoder) : Z := _embed_dim self.


(** ** The library's constructors *)

(** What [__init__] asks of the library.  [super_init_error config] is
    what [super().__init__(config)] raises, if it raises;
    [ctor_error m] is what the constructor of the layer [m] raises on the
    arguments that [m] records ([None]: it returns the layer);
    [embedding_without_dim num pad] is what [nn.Embedding] raises when it
    is given [None] for [embedding_dim], which it cannot build from;
    [init_weights_error self] is what [self.init_weights()] raises. *)
Class Constructors (T : Torch) : Type := {
  super_init_error : RobertaConfig -> option exn;
  ctor_error : nnModule -> option exn;
  embedding_without_dim : Z -> Z -> exn;
  init_weights_error : NewsEncoder -> option exn
}.

Section Init.
Context {T : Torch} {C : Constructors T}.
Local Open Scope result_scope.

(** A library call that returns nothing the constructor keeps. *)
Definition raise_if (e : option exn) : result unit :=
  match e with
  | Some e => Raised e
  | None => OK tt
  end.

(** A layer constructor of the library, called on the arguments of [m]. *)
Definition new (m : nnModule) : result nnModule :=
  match ctor_error m with
  | Some e => Raised e
  | None => OK m
  end.

(** Lines 41-47: the word embedding reduction. *)
Definition init_reduce_dim (a : Args.t)
  : result (option nnModule * option nnModule * Z) :=
  if Args.apply_reduce_dim a then
    word_embed_dim <- assert_not_None (Args.word_embed_dim a) ;;
    reduce_dim <- new (Linear (hidden_size (Args.config a)) word_embed_dim) ;;
    word_embed_dropout <- new (Dropout (Args.dropout a)) ;;
    OK (Some reduce_dim, Some word_embed_dropout, word_embed_dim)
  else OK (None, None, hidden_size (Args.config a)).

(** [assert window_size is not None and num_cnn_filters is not None] *)
Definition assert_cnn_args (a : Args.t) : result (Z * Z) :=
  match Args.window_size a, Args.num_cnn_filters a with
  | Some window_size, Some num_cnn_filters => OK (window_size, num_cnn_filters)
  | _, _ => Raised AssertionError
  end.

(** The three layers of a text encoder (title or sapo), built in the
    order of the source: the CNN, the dropout, the additive attention. *)
Definition text_layers (a : Args.t) (in_channels window_size num_cnn_filters : Z)
  : result (option nnModule * option nnModule * option nnModule) :=
  cnn <- new (Conv1d_same in_channels num_cnn_filters window_size) ;;
  dropout <- new (Dropout (Args.dropout a)) ;;
  additive_attn <- new (AdditiveAttention (Args.query_dim a) num_cnn_filters) ;;
  OK (Some cnn, Some dropout, Some additive_attn).

Definition no_layers : option nnModule * option nnModule * option nnModule :=
  (None, None, None).

(** Lines 52-67: the CNN encoders of the title and of the sapo.  The
    result is the two triples of layers and the new [_embed_dim]. *)
Definition init_cnn (a : Args.t) (_embed_dim : Z)
  : result ((option nnModule * option nnModule * option nnModule)
            * (option nnModule * option nnModule * option nnModule) * Z) :=
  if negb (Args.use_cls_embed a) then
    '(window_size, num_cnn_filters) <- assert_cnn_args a ;;
    title <- text_layers a _embed_dim window_size num_cnn_filters ;;
    sapo <-
      (if Args.use_sapo a
       then text_layers a _embed_dim window_size num_cnn_filters
       else OK no_layers) ;;
    OK (title, sapo, num_cnn_filters)
  else OK (no_layers, no_layers, _embed_dim).

(** Lines 70-83: the category encoder. *)
Definition init_category (a : Args.t) (_embed_dim : Z)
  : result (option nnModule * option nnModule) :=
  if Args.use_category a then
    '(category_embedding, category_embed_dim) <-
      match Args.category_embed a with
      | Some category_embed =>
          emb <- new (Embedding_from_pretrained category_embed false
                        (Args.category_pad_token_id a)) ;;
          d <- getitem (shape category_embed) 1 ;;
          OK (emb, d)
      | None =>
          num_category <- assert_not_None (Args.num_category a) ;;
          match Args.category_embed_dim a with
          | Some d =>
              emb <- new (Embedding num_category d
                            (Args.category_pad_token_id a)) ;;
              OK (emb, d)
          | None =>
              Raised (embedding_without_dim num_category
                        (Args.category_pad_token_id a))
          end
      end ;;
    linear <- new (Linear category_embed_dim _embed_dim) ;;
    relu <- new ReLU ;;
    category_dense_layer <- new (Sequential [linear; relu]) ;;
    OK (Some category_embedding, Some category_dense_layer)
  else OK (None, None).

(** Lines 86-87: the attentive pooling. *)
Definition init_attn_pooling (a : Args.t) (_embed_dim : Z)
  : result (option nnModule) :=
  if Args.use_sapo a || Args.use_category a
  then attn_pooling <- new (AdditiveAttention (Args.query_dim a) _embed_dim) ;;
       OK (Some attn_pooling)
  else OK None.

Definition __init__ (a : Args.t) : result NewsEncoder :=
  u <- raise_if (super_init_error (Args.config a)) ;;
  roberta <- new (RobertaModel (Args.config a)) ;;
  '(reduce_dim, word_embed_dropout, _embed_dim) <- init_reduce_dim a ;;
  '(title, sapo, _embed_dim) <- init_cnn a _embed_dim ;;
  '(category_embedding, category_dense_layer) <- init_category a _embed_dim ;;
  attn_pooling <- init_attn_pooling a _embed_dim ;;
  let '(title_cnn, title_dropout, title_additive_attn) := title in
  let '(sapo_cnn, sapo_dropout, sapo_additive_attn) := sapo in
  let self :=
    {| roberta := roberta;
       apply_reduce_dim := Args.apply_reduce_dim a;
       reduce_dim := reduce_dim;
       word_embed_dropout := word_embed_dropout;
       _embed_dim := _embed_dim;
       use_cls_embed := Args.use_cls_embed a;
       use_sapo := Args.use_sapo a;
       use_category := Args.use_category a;
       title_cnn := title_cnn;
       title_dropout := title_dropout;
       title_additive_attn := title_additive_attn;
       sapo_cnn := sapo_cnn;
       sapo_dropout := sapo_dropout;
       sapo_additive_attn := sapo_additive_attn;
       category_embedding := category_embedding;
       category_dense_layer := category_dense_layer;
       attn_pooling := attn_pooling |} in
  u <- raise_if (init_weights_error self) ;;
  OK self.
End Init.

(** The library whose constructors always return, and which answers a
    missing [embedding_dim] with a [TypeError]. *)
Definition permissive {T : Torch} : Constructors T :=
  {| super_init_error := fun _ => None;
     ctor_error := fun _ => None;
     embedding_without_dim := fun _ _ => TypeError;
     init_weights_error := fun _ => None |}.

(** The encoder that the arguments describe: what [__init__] gives when
    no library call raises. *)
Definition described {T : Torch} (a : Args.t) : result NewsEncoder :=
  @__init__ T permissive a.

(** ** Programs that call layers *)

(** [forward] is a sequence of calls [self.<attr>(args)] into the library,
    with tensor operations in between.  [Call attr m args k] calls the
    layer [m] stored in attribute [attr] and goes on with [k] on what it
    returns; an argument is [None] when the caller passed [None].  For
    [self.roberta] the value returned is component [[0]] of the model
    output (the last hidden state), which is all the source reads. *)
Inductive Prog {T : Torch} (A : Type) : Type :=
| Ret (a : A)
| Raise (e : exn)
| Call (attr : string) (m : nnModule) (args : list (option Tensor))
       (k : Tensor -> Prog A).
Arguments Ret {T A} a.
Arguments Raise {T A} e.
Arguments Call {T A} attr m args k.

Fixpoint bind {T : Torch} {A B : Type} (p : Prog A) (f : A -> Prog B) : Prog B :=
  match p with
  | Ret a => f a
  | Raise e => Raise e
  | Call attr m args k => Call attr m args (fun t => bind (k t) f)
  end.

Declare Scope prog_scope.
Delimit Scope prog_scope with prog.
Notation "x <- p ;; k" := (bind p (fun x => k))
  (at level 61, p at next level, right associativity) : prog_scope.
Notation "' x <- p ;; k" := (bind p (fun x => k))
  (at level 61, x pattern, p at next level, right associativity) : prog_scope.

Section Forward.
Context {T : Torch}.
Local Open Scope string_scope.
Local Open Scope list_scope.
Local Open Scope prog_scope.

Definition lift {A : Type} (r : result A) : Prog A :=
  match r with
  | OK a => Ret a
  | Raised e => Raise e
  end.

(** [self.<attr>(args)] for an attribute that may be missing. *)
Definition call (attr : string) (layer : option nnModule)
           (args : list (option Tensor)) : Prog Tensor :=
  match layer with
  | Some m => Call attr m args Ret
  | None => Raise AttributeError
  end.

(** Lines 108-119: the title encoder. *)
Definition title_encoder (self : NewsEncoder)
           (title_encoding title_attn_mask : Tensor) : Prog Tensor :=
  title_word_embed <-
    Call "roberta" (roberta self) [Some title_encoding; Some title_attn_mask] Ret ;;
  title_word_embed <-
    (if apply_reduce_dim self then
       title_word_embed <- call "reduce_dim" (reduce_dim self) [Some title_word_embed] ;;
       call "word_embed_dropout" (word_embed_dropout self) [Some title_word_embed]
     else Ret title_word_embed) ;;
  if use_cls_embed self then
    lift (select_first title_word_embed)
  else
    title_word_embed <- lift (transpose_1_2 title_word_embed) ;;
    title_word_context <- call "title_cnn" (title_cnn self) [Some title_word_embed] ;;
    title_word_context <- lift (transpose_1_2 title_word_context) ;;
    title_word_context <-
      call "title_dropout" (title_dropout self) [Some title_word_context] ;;
    call "title_additive_attn" (title_additive_attn self)
         [Some title_word_context; Some title_attn_mask].

(** Lines 124-135: the sapo encoder (the body of [if self.use_sapo]). *)
Definition sapo_encoder (self : NewsEncoder)
           (sapo_encoding sapo_attn_mask : option Tensor) : Prog Tensor :=
  sapo_word_embed <-
    Call "roberta" (roberta self) [sapo_encoding; sapo_attn_mask] Ret ;;
  sapo_word_embed <-
    (if apply_reduce_dim self then
       sapo_word_embed <- call "reduce_dim" (reduce_dim self) [Some sapo_word_embed] ;;
       call "word_embed_dropout" (word_embed_dropout self) [Some sapo_word_embed]
     else Ret sapo_word_embed) ;;
  if use_cls_embed self then
    lift (select_first sapo_word_embed)
  else
    sapo_word_embed <- lift (transpose_1_2 sapo_word_embed) ;;
    sapo_word_context <- call "sapo_cnn" (sapo_cnn self) [Some sapo_word_embed] ;;
    sapo_word_context <- lift (transpose_1_2 sapo_word_context) ;;
    sapo_word_context <-
      call "sapo_dropout" (sapo_dropout self) [Some sapo_word_context] ;;
    call "sapo_additive_attn" (sapo_additive_attn self)
         [Some sapo_word_context; sapo_attn_mask].

(** The two text encoders are one program, up to the attributes that
    hold the CNN layers and up to the inputs. *)
Definition text_encoder (self : NewsEncoder)
           (cnn_attr dropout_attr attn_attr : string)
           (cnn dropout attn : option nnModule)
           (encoding attn_mask : option Tensor) : Prog Tensor :=
  word_embed <- Call "roberta" (roberta self) [encoding; attn_mask] Ret ;;
  word_embed <-
    (if apply_reduce_dim self then
       word_embed <- call "reduce_dim" (reduce_dim self) [Some word_embed] ;;
       call "word_embed_dropout" (word_embed_dropout self) [Some word_embed]
     else Ret word_embed) ;;
  if use_cls_embed self then
    lift (select_first word_embed)
  else
    word_embed <- lift (transpose_1_2 word_embed) ;;
    word_context <- call cnn_attr cnn [Some word_embed] ;;
    word_context <- lift (transpose_1_2 word_context) ;;
    word_context <- call dropout_attr dropout [Some word_context] ;;
    call attn_attr attn [Some word_context; attn_mask].

(** Lines 141-142: the category encoder (the body of [if self.use_category]). *)
Definition category_encoder (self : NewsEncoder)
           (category_encoding : option Tensor) : Prog Tensor :=
  category_embed <-
    call "category_embedding" (category_embedding self) [category_encoding] ;;
  call "category_dense_layer" (category_dense_layer self) [Some category_embed].

(** Lines 106-143: the list [news_info], with [title_repr], which the
    last step reads too. *)
Definition collect_news_info (self : NewsEncoder)
           (title_encoding title_attn_mask : Tensor)
           (sapo_encoding sapo_attn_mask category_encoding : option Tensor)
  : Prog (Tensor * list Tensor) :=
  title_repr <- title_encoder self title_encoding title_attn_mask ;;
  let news_info := [title_repr] in
  news_info <-
    (if use_sapo self then
       sapo_repr <- sapo_encoder self sapo_encoding sapo_attn_mask ;;
       Ret (news_info ++ [sapo_repr])
     else Ret news_info) ;;
  news_info <-
    (if use_category self then
       category_repr <- category_encoder self category_encoding ;;
       Ret (news_info ++ [category_repr])
     else Ret news_info) ;;
  Ret (title_repr, news_info).

(** Lines 146-152: the attentive pooling. *)
Definition attentive_pooling (self : NewsEncoder)
           (title_repr : Tensor) (news_info : list Tensor) : Prog Tensor :=
  if use_category self || use_sapo self then
    news_info <- lift (stack_dim1 news_info) ;;
    shape0 <- lift (getitem (shape news_info) 0) ;;
    shape1 <- lift (getitem (shape news_info) 1) ;;
    let mask := ones_bool shape0 shape1 in
    call "attn_pooling" (attn_pooling self) [Some news_info; Some mask]
  else Ret title_repr.

Definition forward (self : NewsEncoder)
           (title_encoding title_attn_mask : Tensor)
           (sapo_encoding sapo_attn_mask category_encoding : option Tensor)
  : Prog Tensor :=
  '(title_repr, news_info) <-
    collect_news_info self title_encoding title_attn_mask
                      sapo_encoding sapo_attn_mask category_encoding ;;
  attentive_pooling self title_repr news_info.
End Forward.

(** ** Running a program on a backend *)

(** The library behind the calls: a state (weights, mode, random state), a
    way to run a layer on arguments, which may raise, the inputs a layer
    with an embedding table accepts (indices of the table, for the
    language model a length within its positions too) and the tensors the
    library accepts as an attention mask. *)
Record Backend {T : Torch} : Type := {
  World : Type;
  handle : string -> nnModule -> list (option Tensor) -> World
           -> result Tensor * World;
  in_vocab : nnModule -> Tensor -> Prop;
  accepts_mask : Tensor -> Prop
}.
Arguments Backend T : clear implicits.


(** One call, as the backend saw it. *)
Record CallEvent {T : Torch} : Type := {
  ev_attr : string;
  ev_module : nnModule;
  ev_args : list (option Tensor);
  ev_result : result Tensor
}.

Section Run.
Context {T : Torch} (B : Backend T).

(** The outcome of a run: the value or the exception, the final state and
    the calls made, in order. *)
Definition Outcome (A : Type) : Type := result A * World B * list CallEvent.

Fixpoint run {A : Type} (p : Prog A) (w : World B) : Outcome A :=
  match p with
  | Ret a => (OK a, w, [])
  | Raise e => (Raised e, w, [])
  | Call attr m args k =>
      let '(r, w') := handle B attr m args w in
      let ev := {| ev_attr := attr; ev_module := m;
                   ev_args := args; ev_result := r |} in
      match r with
      | OK t => let '(ra, w'', tr) := run (k t) w' in (ra, w'', ev :: tr)
      | Raised e => (Raised e, w', [ev])
      end
  end.
End Run.


(** ** The contracts of the layers *)

(** The sizes of a layer are positive and a pretrained table has two
    dimensions.  (A [Conv1d] of kernel size 0 can be built, and raises
    when it is called.) *)
Fixpoint well_sized {T : Torch} (m : nnModule) : Prop :=
  match m with
  | RobertaModel config => 0 < hidden_size config
  | Linear in_features out_features => 0 < in_features /\ 0 < out_features
  | Dropout _ => True
  | Conv1d_same in_channels out_channels kernel_size =>
      0 < in_channels /\ 0 < out_channels /\ 0 < kernel_size
  | AdditiveAttention query_dim embed_dim => 0 < query_dim /\ 0 < embed_dim
  | Embedding num_embeddings embedding_dim _ =>
      0 < num_embeddings /\ 0 < embedding_dim
  | Embedding_from_pretrained embeddings _ _ =>
      exists n d, shape embeddings = [n; d] /\ 0 < n /\ 0 < d
  | ReLU => True
  | Sequential layers =>
      (fix all (l : list nnModule) : Prop :=
         match l with
         | [] => True
         | m :: l => well_sized m /\ all l
         end) layers
  end.

(** A layer that the library built and whose sizes are positive. *)
Definition usable {T : Torch} {C : Constructors T} (m : nnModule) : Prop :=
  ctor_error m = None /\ well_sized m.

(** The shape contracts of the layers, for a usable layer stored under
    any attribute, run in any state on tensors that are not empty.
    [Linear], [ReLU] and the embedding lookup work on the last dimension
    (a pretrained table has [weights.shape[1]] columns); [Dropout] keeps
    the shape; [Conv1d] with [padding='same'] keeps the length;
    [AdditiveAttention] pools [(batch, length, dim)] under a
    [(batch, length)] mask to [(batch, dim)]; a mask of ones is a mask the
    library accepts. *)
Class BackendLaws {T : Torch} {C : Constructors T} (B : Backend T) : Prop := {
  roberta_shape : forall attr config input_ids attention_mask b l w,
    usable (RobertaModel config) -> 0 < b -> 0 < l ->
    shape input_ids = [b; l] -> shape attention_mask = [b; l] ->
    in_vocab B (RobertaModel config) input_ids ->
    accepts_mask B attention_mask ->
    exists t w',
      handle B attr (RobertaModel config)
             [Some input_ids; Some attention_mask] w = (OK t, w')
      /\ shape t = [b; l; hidden_size config];
  linear_shape : forall attr i o x b l w,
    usable (Linear i o) -> 0 < b -> 0 < l ->
    shape x = [b; l; i] ->
    exists t w',
      handle B attr (Linear i o) [Some x] w = (OK t, w')
      /\ shape t = [b; l; o];
  dropout_shape : forall attr p x w,
    usable (Dropout p) -> Forall (fun d => 0 < d) (shape x) ->
    exists t w',
      handle B attr (Dropout p) [Some x] w = (OK t, w')
      /\ shape t = shape x;
  conv1d_shape : forall attr i o k x b l w,
    usable (Conv1d_same i o k) -> 0 < b -> 0 < l ->
    shape x = [b; i; l] ->
    exists t w',
      handle B attr (Conv1d_same i o k) [Some x] w = (OK t, w')
      /\ shape t = [b; o; l];
  attention_shape : forall attr q d embeddings mask b l w,
    usable (AdditiveAttention q d) -> 0 < b -> 0 < l ->
    shape embeddings = [b; l; d] -> shape mask = [b; l] ->
    accepts_mask B mask ->
    exists t w',
      handle B attr (AdditiveAttention q d) [Some embeddings; Some mask] w
      = (OK t, w')
      /\ shape t = [b; d];
  embedding_shape : forall attr n d p ids b w,
    usable (Embedding n d p) -> 0 < b ->
    shape ids = [b] ->
    in_vocab B (Embedding n d p) ids ->
    exists t w',
      handle B attr (Embedding n d p) [Some ids] w = (OK t, w')
      /\ shape t = [b; d];
  pretrained_shape : forall attr weights freeze p ids b d w,
    usable (Embedding_from_pretrained weights freeze p) -> 0 < b ->
    shape ids = [b] ->
    in_vocab B (Embedding_from_pretrained weights freeze p) ids ->
    nth_error (shape weights) 1 = Some d ->
    exists t w',
      handle B attr (Embedding_from_pretrained weights freeze p) [Some ids] w
      = (OK t, w')
      /\ shape t = [b; d];
  dense_relu_shape : forall attr i o x b w,
    usable (Sequential [Linear i o; ReLU]) -> 0 < b ->
    shape x = [b; i] ->
    exists t w',
      handle B attr (Sequential [Linear i o; ReLU]) [Some x] w = (OK t, w')
      /\ shape t = [b; o];
  ones_accepted : forall b n,
    0 < b -> 0 < n -> accepts_mask B (ones_bool b n)
}.

(** ** A batch that the encoder accepts *)

(** [has_shape o s]: the optional argument is a tensor of shape [s]. *)
Definition has_shape {T : Torch} (o : option Tensor) (s : list Z) : Prop :=
  match o with
  | Some t => shape t = s
  | None => False
  end.

Definition all_in_vocab {T : Torch} (B : Backend T) (m : option nnModule)
           (o : option Tensor) : Prop :=
  match m, o with
  | Some m, Some t => in_vocab B m t
  | _, _ => False
  end.

Definition is_mask {T : Torch} (B : Backend T) (o : option Tensor) : Prop :=
  match o with
  | Some t => accepts_mask B t
  | None => False
  end.

(** A text input of [length] tokens for a batch of [batch_size]: token
    ids and attention mask of shape [(batch_size, length)], not empty, the
    ids being ones the language model has and the mask one the library
    accepts. *)
Definition valid_text {T : Torch} (B : Backend T) (self : NewsEncoder)
           (batch_size length : Z) (encoding attn_mask : option Tensor) : Prop :=
  0 < length
  /\ has_shape encoding [batch_size; length]
  /\ has_shape attn_mask [batch_size; length]
  /\ all_in_vocab B (Some (roberta self)) encoding
  /\ is_mask B attn_mask.

(** The docstring of [forward], for a batch that is not empty:
    [title_encoding] and [title_attn_mask] of shape
    [(batch_size, title_length)]; when the sapo is used, [sapo_encoding]
    and [sapo_attn_mask] of shape [(batch_size, sapo_length)]; when the
    category is used, [category_encoding] of shape [(batch_size)]. *)
Definition valid_batch {T : Torch} (B : Backend T) (self : NewsEncoder)
           (batch_size : Z)
           (title_encoding title_attn_mask : Tensor)
           (sapo_encoding sapo_attn_mask category_encoding : option Tensor)
  : Prop :=
  0 < batch_size
  /\ (exists title_length,
         valid_text B self batch_size title_length
                    (Some title_encoding) (Some title_attn_mask))
  /\ (use_sapo self = true ->
      exists sapo_length,
        valid_text B self batch_size sapo_length sapo_encoding sapo_attn_mask)
  /\ (use_category self = true ->
      has_shape category_encoding [batch_size]
      /\ all_in_vocab B (category_embedding self) category_encoding).

(** ** A library that computes shapes *)

(** The smallest library that keeps the contracts above: a tensor is its
    shape, a list of natural numbers; a layer maps the shapes of its
    arguments to the shape of its result and raises on the others; the
    state counts the dropout draws.  Its constructors make the checks of
    the torch constructors: a dropout probability within [[0, 1]], no
    negative size, a padding index within the table, a pretrained table
    of two dimensions. *)
Module Shapes.
Definition tensor : Type := list N.

Definition shape_eqb (s1 s2 : tensor) : bool :=
  if list_eq_dec N.eq_dec s1 s2 then true else false.

(** [t[:, 0, :]]: at least three dimensions, the second not empty. *)
Definition shape_select_first (t : tensor) : result tensor :=
  match t with
  | b :: l :: d :: rest =>
      if (0 <? l)%N then OK (b :: d :: rest) else Raised IndexError
  | _ => Raised IndexError
  end.

(** [t.transpose(1, 2)]: at least three dimensions. *)
Definition shape_transpose_1_2 (t : tensor) : result tensor :=
  match t with
  | b :: l :: d :: rest => OK (b :: d :: l :: rest)
  | _ => Raised IndexError
  end.

Definition shape_stack_dim1 (ts : list tensor) : result tensor :=
  match ts with
  | [] => Raised RuntimeError
  | t :: rest =>
      if forallb (shape_eqb t) rest then
        match t with
        | b :: inner => OK (b :: N.of_nat (List.length ts) :: inner)
        | [] => Raised IndexError
        end
      else Raised RuntimeError
  end.

Definition torch : Torch :=
  {| Tensor := tensor;
     pyfloat := Z * positive;
     shape := map Z.of_N;
     select_first := shape_select_first;
     transpose_1_2 := shape_transpose_1_2;
     stack_dim1 := shape_stack_dim1;
     ones_bool := fun b n => [Z.to_N b; Z.to_N n] |}.

(** [p] as a fraction is a probability. *)
Definition is_probability (p : Z * positive) : bool :=
  (0 <=? fst p) && (fst p <=? Z.pos (snd p)).

(** The check of [nn.Embedding] on [padding_idx]: below the number of
    rows when positive, not below its opposite when negative. *)
Definition padding_idx_ok (num_embeddings padding_idx : Z) : bool :=
  if 0 <? padding_idx then padding_idx <? num_embeddings
  else if padding_idx <? 0 then - num_embeddings <=? padding_idx
  else true.

Definition negative_size (sizes : list Z) : bool :=
  existsb (fun s => s <? 0) sizes.

Definition shape_ctor_error (m : @nnModule torch) : option exn :=
  match m with
  | RobertaModel config =>
      if negative_size [hidden_size config] then Some RuntimeError else None
  | Linear i o =>
      if negative_size [i; o] then Some RuntimeError else None
  | Dropout p =>
      if is_probability p then None else Some ValueError
  | Conv1d_same i o k =>
      if negative_size [i; o; k] then Some RuntimeError else None
  | AdditiveAttention q d =>
      if negative_size [q; d] then Some RuntimeError else None
  | Embedding n d p =>
      if negb (padding_idx_ok n p) then Some AssertionError
      else if negative_size [n; d] then Some RuntimeError
      else None
  | Embedding_from_pretrained weights _ p =>
      match weights with
      | [n; _] =>
          if padding_idx_ok (Z.of_N n) p then None else Some AssertionError
      | _ => Some AssertionError
      end
  | ReLU => None
  | Sequential _ => None
  end.

Definition constructors : Constructors torch :=
  {| super_init_error := fun _ => None;
     ctor_error := shape_ctor_error;
     embedding_without_dim := fun n p =>
       if padding_idx_ok n p then TypeError else AssertionError;
     init_weights_error := fun _ => None |}.

(** A layer on the last dimension: [in_features] there, [out_features]
    after. *)
Definition on_last_dim (in_features out_features : Z) (x : tensor)
  : result tensor :=
  match rev x with
  | last :: front =>
      if (Z.of_N last =? in_features) && (0 <=? out_features)
      then OK (rev front ++ [Z.to_N out_features])
      else Raised RuntimeError
  | [] => Raised RuntimeError
  end.

(** The attention mask of the language model may be left out; the token
    ids may not, and have two dimensions. *)
Definition mask_fits (mask : option tensor) (s : tensor) : bool :=
  match mask with
  | Some m => shape_eqb m s
  | None => true
  end.

Definition run_layer (m : @nnModule torch) (args : list (option tensor))
  : result tensor :=
  match m, args with
  | RobertaModel config, [Some [b; l]; mask] =>
      if mask_fits mask [b; l] && (0 <? l)%N && (0 <? hidden_size config)
      then OK [b; l; Z.to_N (hidden_size config)]
      else Raised RuntimeError
  | RobertaModel config, _ => Raised ValueError
  | Linear i o, [Some x] => on_last_dim i o x
  | Dropout _, [Some x] => OK x
  | Conv1d_same i o k, [Some [b; c; l]] =>
      if (Z.of_N c =? i) && (0 <? l)%N && (0 <? k) && (0 <=? o)
      then OK [b; Z.to_N o; l]
      else Raised RuntimeError
  | AdditiveAttention _ d, [Some [b; l; d']; Some mask] =>
      if shape_eqb mask [b; l] && (Z.of_N d' =? d) && (0 <? l)%N
      then OK [b; d']
      else Raised RuntimeError
  | Embedding _ d _, [Some ids] =>
      if 0 <=? d then OK (ids ++ [Z.to_N d]) else Raised RuntimeError
  | Embedding_from_pretrained weights _ _, [Some ids] =>
      match nth_error weights 1 with
      | Some d => OK (ids ++ [d])
      | None => Raised IndexError
      end
  | Sequential [Linear i o; ReLU], [Some x] => on_last_dim i o x
  | ReLU, [Some x] => OK x
  | _, _ => Raised TypeError
  end.

Definition is_dropout (m : @nnModule torch) : bool :=
  match m with
  | Dropout _ => true
  | _ => false
  end.

Definition backend : Backend torch :=
  {| World := nat;
     handle := fun _ m args w =>
       (run_layer m args, if is_dropout m then S w else w);
     in_vocab := fun _ _ => True;
     accepts_mask := fun _ => True |}.

Definition config : RobertaConfig := {| hidden_size := 768 |}.

(** Arguments for the sixteen settings of the four flags, with a padding
    index, a dropout and a window size; everything else given: 256 word
    dimensions, 128 filters, 18 categories of 100 dimensions. *)
Definition custom_args
           (apply_reduce_dim use_cls_embed use_sapo use_category : bool)
           (category_pad_token_id : Z) (dropout : Z * positive)
           (window_size : option Z)
  : @Args.t torch :=
  {| Args.config := config;
     Args.apply_reduce_dim := apply_reduce_dim;
     Args.use_cls_embed := use_cls_embed;
     Args.use_sapo := use_sapo;
     Args.use_category := use_category;
     Args.category_pad_token_id := category_pad_token_id;
     Args.query_dim := 200;
     Args.dropout := (dropout : @pyfloat torch);
     Args.category_embed_dim := Some 100;
     Args.category_embed := None;
     Args.num_category := Some 18;
     Args.num_cnn_filters := Some 128;
     Args.window_size := window_size;
     Args.word_embed_dim := Some 256 |}.

(** The same with padding index 0, dropout 0.2 and filters of width 3. *)
Definition args (apply_reduce_dim use_cls_embed use_sapo use_category : bool)
  : @Args.t torch :=
  custom_args apply_reduce_dim use_cls_embed use_sapo use_category
              0 (1, 5%positive) (Some 3).

(** The same with a pretrained category table of 18 rows and 100
    columns, and 7 given for [category_embed_dim]. *)
Definition category_embed : tensor := [18; 100]%N.

Definition pretrained_args
           (apply_reduce_dim use_cls_embed use_sapo : bool) : @Args.t torch :=
  {| Args.config := config;
     Args.apply_reduce_dim := apply_reduce_dim;
     Args.use_cls_embed := use_cls_embed;
     Args.use_sapo := use_sapo;
     Args.use_category := true;
     Args.category_pad_token_id := 0;
     Args.query_dim := 200;
     Args.dropout := ((1, 5%positive) : @pyfloat torch);
     Args.category_embed_dim := Some 7;
     Args.category_embed := Some category_embed;
     Args.num_category := None;
     Args.num_cnn_filters := Some 128;
     Args.window_size := Some 3;
     Args.word_embed_dim := Some 256 |}.


(** A batch of 4 articles: titles of 32 tokens, sapos of 64 tokens. *)
Definition title_encoding : tensor := [4; 32]%N.
Definition title_attn_mask : tensor := [4; 32]%N.
Definition sapo_encoding : tensor := [4; 64]%N.
Definition sapo_attn_mask : tensor := [4; 64]%N.
Definition category_encoding : tensor := [4]%N.
End Shapes.

(** ** Statements about the constructor *)

Section Preconditions.
Context {T : Torch}.

(** [apply_reduce_dim] without [word_embed_dim]. *)
Definition violates_reduce_dim (a : Args.t) : Prop :=
  Args.apply_reduce_dim a = true /\ Args.word_embed_dim a = None.

(** The CNN pathway without [window_size] or without [num_cnn_filters]. *)
Definition violates_cnn (a : Args.t) : Prop :=
  Args.use_cls_embed a = false
  /\ (Args.window_size a = None \/ Args.num_cnn_filters a = None).


(** [m] is an embedding table of [d] columns. *)
Definition is_embedding (m : nnModule) (d : Z) : Prop :=
  (exists n p, m = Embedding n d p)
  \/ (exists weights freeze p,
         m = Embedding_from_pretrained weights freeze p
         /\ nth_error (shape weights) 1 = Some d).

(** The layers of one CNN text encoder, from [in_dim] to [out_dim]. *)
Definition cnn_encoder (cnn dropout attn : option nnModule)
           (in_dim out_dim : Z) : Prop :=
  exists k p q,
    cnn = Some (Conv1d_same in_dim out_dim k)
    /\ dropout = Some (Dropout p)
    /\ attn = Some (AdditiveAttention q out_dim).

(** What [__init__] leaves behind: every layer that [forward] reads under
    a setting of the flags is there, and the dimensions of the layers
    fit each other and [_embed_dim].  [word_dim] is the size of a word
    embedding after the optional reduction. *)
Definition consistent (self : NewsEncoder) : Prop :=
  exists config word_dim,
    roberta self = RobertaModel config
    /\ (if apply_reduce_dim self
        then exists p,
            reduce_dim self = Some (Linear (hidden_size config) word_dim)
            /\ word_embed_dropout self = Some (Dropout p)
        else word_dim = hidden_size config)
    /\ (if use_cls_embed self
        then _embed_dim self = word_dim
        else cnn_encoder (title_cnn self) (title_dropout self)
                         (title_additive_attn self) word_dim (_embed_dim self)
             /\ (use_sapo self = true ->
                 cnn_encoder (sapo_cnn self) (sapo_dropout self)
                             (sapo_additive_attn self) word_dim (_embed_dim self)))
    /\ (use_category self = true ->
        exists emb d,
          category_embedding self = Some emb /\ is_embedding emb d
          /\ category_dense_layer self
             = Some (Sequential [Linear d (_embed_dim self); ReLU]))
    /\ (use_sapo self || use_category self = true ->
        exists q, attn_pooling self = Some (AdditiveAttention q (_embed_dim self))).
End Preconditions.

(** ** Statements about runs *)

Section Outcomes.
Context {T : Torch} (B : Backend T).

(** The program returns from state [w], with a value that satisfies [Q]. *)
Definition returns {A : Type} (p : Prog A) (w : World B) (Q : A -> Prop) : Prop :=
  exists a w' tr, run B p w = (OK a, w', tr) /\ Q a.

Definition trace_of {A : Type} (o : Outcome B A) : list CallEvent := snd o.

(** A call that returned [t]. *)
Definition called (attr : string) (m : nnModule) (args : list (option Tensor))
           (t : Tensor) : CallEvent :=
  {| ev_attr := attr; ev_module := m; ev_args := args; ev_result := OK t |}.

(** An optional component of [news_info]: with the flag, the encoder [p]
    ran from [w] to [w'] with calls [tr] and gave the one
    representation in [reprs]; without it nothing ran and [reprs] is
    empty. *)
Definition optional_component (flag : bool) (p : Prog Tensor) (w : World B)
           (reprs : list Tensor) (w' : World B) (tr : list CallEvent) : Prop :=
  if flag
  then exists repr, run B p w = (OK repr, w', tr) /\ reprs = [repr]
  else reprs = [] /\ w' = w /\ tr = [].

(** [word_embed] is the word embedding of a text: the output of the
    language model on [(encoding, attn_mask)], passed through
    [reduce_dim] and [word_embed_dropout] when [apply_reduce_dim]. *)
Definition word_embed_of (self : NewsEncoder)
           (encoding attn_mask : option Tensor) (w : World B)
           (word_embed : Tensor) (w' : World B) (tr : list CallEvent) : Prop :=
  exists lm w0,
    handle B "roberta" (roberta self) [encoding; attn_mask] w = (OK lm, w0)
    /\ if apply_reduce_dim self
       then exists linear drop reduced w1,
           reduce_dim self = Some linear
           /\ word_embed_dropout self = Some drop
           /\ handle B "reduce_dim" linear [Some lm] w0 = (OK reduced, w1)
           /\ handle B "word_embed_dropout" drop [Some reduced] w1
              = (OK word_embed, w')
           /\ tr = [called "roberta" (roberta self) [encoding; attn_mask] lm;
                    called "reduce_dim" linear [Some lm] reduced;
                    called "word_embed_dropout" drop [Some reduced] word_embed]
       else word_embed = lm /\ w' = w0
            /\ tr = [called "roberta" (roberta self) [encoding; attn_mask] lm].

Definition is_cnn_or_attention (m : nnModule) : bool :=
  match m with
  | Conv1d_same _ _ _ | AdditiveAttention _ _ => true
  | _ => false
  end.

(** The [[CLS]] pathway: the representation is the word embedding at
    sequence position 0, and no CNN and no attention was called. *)
Definition cls_pathway (self : NewsEncoder)
           (encoding attn_mask : option Tensor) (w : World B)
           (repr : Tensor) (w' : World B) (tr : list CallEvent) : Prop :=
  exists word_embed,
    word_embed_of self encoding attn_mask w word_embed w' tr
    /\ select_first word_embed = OK repr
    /\ Forall (fun ev => is_cnn_or_attention (ev_module ev) = false) tr.

(** The CNN pathway: the word embedding, transposed, goes through the
    [Conv1d]; its output, transposed back, through the dropout; the
    representation is the additive attention over that, under the
    attention mask of the text. *)
Definition cnn_pathway (self : NewsEncoder)
           (cnn_attr dropout_attr attn_attr : string)
           (encoding attn_mask : option Tensor) (w : World B)
           (repr : Tensor) (w' : World B) (tr : list CallEvent) : Prop :=
  exists word_embed w1 tr1 x in_dim k conv_out w2 y p context w3 q,
    word_embed_of self encoding attn_mask w word_embed w1 tr1
    /\ transpose_1_2 word_embed = OK x
    /\ handle B cnn_attr (Conv1d_same in_dim (_embed_dim self) k) [Some x] w1
       = (OK conv_out, w2)
    /\ transpose_1_2 conv_out = OK y
    /\ handle B dropout_attr (Dropout p) [Some y] w2 = (OK context, w3)
    /\ handle B attn_attr (AdditiveAttention q (_embed_dim self))
              [Some context; attn_mask] w3
       = (OK repr, w')
    /\ tr = tr1
            ++ [called cnn_attr (Conv1d_same in_dim (_embed_dim self) k)
                       [Some x] conv_out;
                called dropout_attr (Dropout p) [Some y] context;
                called attn_attr (AdditiveAttention q (_embed_dim self))
                       [Some context; attn_mask] repr].

(** The representation is the output of the language model itself at
    sequence position 0. *)
Definition lm_cls_embedding (self : NewsEncoder)
           (encoding attn_mask : option Tensor) (w : World B)
           (repr : Tensor) : Prop :=
  exists lm w0,
    handle B "roberta" (roberta self) [encoding; attn_mask] w = (OK lm, w0)
    /\ select_first lm = OK repr.

(** The output of [forward] is what the [attn_pooling] layer returned, in
    the last call of the run. *)
Definition pooled_by_attn_pooling (self : NewsEncoder)
           (title_encoding title_attn_mask : Tensor)
           (sapo_encoding sapo_attn_mask category_encoding : option Tensor)
           (w : World B) : Prop :=
  forall out w' tr,
    run B (forward self title_encoding title_attn_mask
                   sapo_encoding sapo_attn_mask category_encoding) w
    = (OK out, w', tr) ->
    exists tr0 m args, tr = tr0 ++ [called "attn_pooling" m args out].
End Outcomes.

(** ** The layers of an encoder and the calls of a run *)

Section Layers.
Context {T : Torch}.
Local Open Scope string_scope.
Local Open Scope list_scope.

Definition child (name : string) (layer : option nnModule)
  : list (string * nnModule) :=
  match layer with
  | Some m => [(name, m)]
  | None => []
  end.

(** The layers that are attributes of [self], under their names, in the
    order in which [__init__] sets them. *)
Definition named_children (self : NewsEncoder) : list (string * nnModule) :=
  [("roberta", roberta self)]
    ++ child "reduce_dim" (reduce_dim self)
    ++ child "word_embed_dropout" (word_embed_dropout self)
    ++ child "title_cnn" (title_cnn self)
    ++ child "title_dropout" (title_dropout self)
    ++ child "title_additive_attn" (title_additive_attn self)
    ++ child "sapo_cnn" (sapo_cnn self)
    ++ child "sapo_dropout" (sapo_dropout self)
    ++ child "sapo_additive_attn" (sapo_additive_attn self)
    ++ child "category_embedding" (category_embedding self)
    ++ child "category_dense_layer" (category_dense_layer self)
    ++ child "attn_pooling" (attn_pooling self).

(** The attributes a text encoder calls, in order, as the flags have it. *)
Definition text_calls (self : NewsEncoder)
           (cnn_attr dropout_attr attn_attr : string) : list string :=
  ["roberta"]
    ++ (if apply_reduce_dim self
        then ["reduce_dim"; "word_embed_dropout"] else [])
    ++ (if use_cls_embed self
        then [] else [cnn_attr; dropout_attr; attn_attr]).

(** The attributes [forward] calls, in order, as the flags have it. *)
Definition forward_calls (self : NewsEncoder) : list string :=
  text_calls self "title_cnn" "title_dropout" "title_additive_attn"
    ++ (if use_sapo self
        then text_calls self "sapo_cnn" "sapo_dropout" "sapo_additive_attn"
        else [])
    ++ (if use_category self
        then ["category_embedding"; "category_dense_layer"] else [])
    ++ (if use_category self || use_sapo self then ["attn_pooling"] else []).

(** The number of representations in [news_info]. *)
Definition num_components (self : NewsEncoder) : Z :=
  1 + (if use_sapo self then 1 else 0) + (if use_category self then 1 else 0).

(** [self.use_sapo = b] and [self.use_category = b] on a built encoder. *)
Definition set_use_sapo (self : NewsEncoder) (b : bool) : NewsEncoder :=
  {| roberta := roberta self;
     apply_reduce_dim := apply_reduce_dim self;
     reduce_dim := reduce_dim self;
     word_embed_dropout := word_embed_dropout self;
     _embed_dim := _embed_dim self;
     use_cls_embed := use_cls_embed self;
     use_sapo := b;
     use_category := use_category self;
     title_cnn := title_cnn self;
     title_dropout := title_dropout self;
     title_additive_attn := title_additive_attn self;
     sapo_cnn := sapo_cnn self;
     sapo_dropout := sapo_dropout self;
     sapo_additive_attn := sapo_additive_attn self;
     category_embedding := category_embedding self;
     category_dense_layer := category_dense_layer self;
     attn_pooling := attn_pooling self |}.

Definition set_use_category (self : NewsEncoder) (b : bool) : NewsEncoder :=
  {| roberta := roberta self;
     apply_reduce_dim := apply_reduce_dim self;
     reduce_dim := reduce_dim self;
     word_embed_dropout := word_embed_dropout self;
     _embed_dim := _embed_dim self;
     use_cls_embed := use_cls_embed self;
     use_sapo := use_sapo self;
     use_category := b;
     title_cnn := title_cnn self;
     title_dropout := title_dropout self;
     title_additive_attn := title_additive_attn self;
     sapo_cnn := sapo_cnn self;
     sapo_dropout := sapo_dropout self;
     sapo_additive_attn := sapo_additive_attn self;
     category_embedding := category_embedding self;
     category_dense_layer := category_dense_layer self;
     attn_pooling := attn_pooling self |}.

(** The value of [embed_dim] that the arguments determine: the number of
    CNN filters on the CNN pathway, else the reduced word dimension, else
    the hidden size of the language model. *)
Definition expected_embed_dim (a : Args.t) : option Z :=
  if Args.use_cls_embed a
  then if Args.apply_reduce_dim a
       then Args.word_embed_dim a
       else Some (hidden_size (Args.config a))
  else Args.num_cnn_filters a.

(** The category arguments suffice to build the embedding table: a
    pretrained table with a second dimension, or else both
    [num_category] and [category_embed_dim]. *)
Definition category_args_usable (a : Args.t) : Prop :=
  match Args.category_embed a with
  | Some weights => exists d, nth_error (shape weights) 1 = Some d
  | None => Args.num_category a <> None /\ Args.category_embed_dim a <> None
  end.

(** Two argument records that agree on everything the constructor reads
    under their flags. *)
Definition args_agree (a a' : Args.t) : Prop :=
  Args.config a = Args.config a'
  /\ Args.apply_reduce_dim a = Args.apply_reduce_dim a'
  /\ Args.use_cls_embed a = Args.use_cls_embed a'
  /\ Args.use_sapo a = Args.use_sapo a'
  /\ Args.use_category a = Args.use_category a'
  /\ (Args.apply_reduce_dim a = true ->
      Args.word_embed_dim a = Args.word_embed_dim a')
  /\ (Args.use_cls_embed a = false ->
      Args.window_size a = Args.window_size a'
      /\ Args.num_cnn_filters a = Args.num_cnn_filters a')
  /\ (Args.apply_reduce_dim a = true \/ Args.use_cls_embed a = false ->
      Args.dropout a = Args.dropout a')
  /\ (Args.use_cls_embed a = false \/ Args.use_sapo a = true
      \/ Args.use_category a = true ->
      Args.query_dim a = Args.query_dim a')
  /\ (Args.use_category a = true ->
      Args.category_pad_token_id a = Args.category_pad_token_id a'
      /\ Args.category_embed a = Args.category_embed a'
      /\ (Args.category_embed a = None ->
          Args.num_category a = Args.num_category a'
          /\ Args.category_embed_dim a = Args.category_embed_dim a')).
End Layers.

(** A library that never raises [AttributeError] of its own: whatever a
    tensor operation or a layer raises, it is another exception. *)
Definition no_AttributeError_inside {T : Torch} (B : Backend T) : Prop :=
  (forall t, select_first t <> Raised AttributeError)
  /\ (forall t, transpose_1_2 t <> Raised AttributeError)
  /\ (forall ts, stack_dim1 ts <> Raised AttributeError)
  /\ (forall attr m args w,
         fst (handle B attr m args w) <> Raised AttributeError).

Section CallSequences.
Context {T : Torch} (B : Backend T).

Definition is_prefix {A : Type} (l1 l2 : list A) : Prop :=
  exists rest, l2 = l1 ++ rest.

(** The call went to a layer of [self], under the attribute that holds it. *)
Definition registered (self : NewsEncoder) (ev : CallEvent) : Prop :=
  In (ev_attr ev, ev_module ev) (named_children self).

(** From every state, the attributes [p] calls are a prefix of [names],
    all of [names] when [p] returns, and each call goes to the layer that
    [self] holds under the attribute. *)
Definition calls_within (self : NewsEncoder) {A : Type} (p : Prog A)
           (names : list string) : Prop :=
  forall w,
    is_prefix (map ev_attr (trace_of B (run B p w))) names
    /\ Forall (registered self) (trace_of B (run B p w))
    /\ (forall a w' tr,
           run B p w = (OK a, w', tr) -> map ev_attr tr = names).

(** No run of [p] ends in an [AttributeError]. *)
Definition never_AttributeError {A : Type} (p : Prog A) : Prop :=
  forall w, fst (fst (run B p w)) <> Raised AttributeError.
End CallSequences.

(** Arguments with every optional argument left out: the title alone,
    through the [[CLS]] embedding of the language model. *)
Definition bare_args : @Args.t Shapes.torch :=
  {| Args.config := Shapes.config;
     Args.apply_reduce_dim := false;
     Args.use_cls_embed := true;
     Args.use_sapo := false;
     Args.use_category := false;
     Args.category_pad_token_id := 0;
     Args.query_dim := 0;
     Args.dropout := ((0, 1%positive) : @pyfloat Shapes.torch);
     Args.category_embed_dim := None;
     Args.category_embed := None;
     Args.num_category := None;
     Args.num_cnn_filters := None;
     Args.window_size := None;
     Args.word_embed_dim := None |}.

(** How many of the calls went to the attribute [attr]. *)
Definition count_calls {T : Torch} (attr : string) (tr : list CallEvent) : nat :=
  List.length (filter (fun ev => String.eqb (ev_attr ev) attr) tr).

(** ** What the arguments describe *)

Section Described.
Context {T : Torch}.

Definition layers_in (layer : option nnModule) : list nnModule :=
  match layer with
  | Some m => [m]
  | None => []
  end.

(** The descriptors of the three layers of a CNN text encoder. *)
Definition text_layers_described (a : Args.t)
           (in_channels window_size num_cnn_filters : Z)
  : option nnModule * option nnModule * option nnModule :=
  (Some (Conv1d_same in_channels num_cnn_filters window_size),
   Some (Dropout (Args.dropout a)),
   Some (AdditiveAttention (Args.query_dim a) num_cnn_filters)).

(** The descriptor of the attentive pooling, if the flags ask for one. *)
Definition attn_pooling_described (a : Args.t) (_embed_dim : Z)
  : option nnModule :=
  if Args.use_sapo a || Args.use_category a
  then Some (AdditiveAttention (Args.query_dim a) _embed_dim)
  else None.
End Described.

(** ** Statements about the library's constructors *)

Section LibraryStatements.
Context {T : Torch} {C : Constructors T}.

(** The layers the constructor built for [self], the two inside the
    [Sequential] of the category encoder included. *)
Definition built_layers (self : NewsEncoder) : list nnModule :=
  map snd (named_children self)
    ++ match category_dense_layer self with
       | Some (Sequential layers) => layers
       | _ => []
       end.

(** Every library call that building the encoder [self] from [a] takes
    returns. *)
Definition accepted (a : Args.t) (self : NewsEncoder) : Prop :=
  super_init_error (Args.config a) = None
  /\ (forall m, In m (built_layers self) -> ctor_error m = None)
  /\ init_weights_error self = None.

(** The library builds what the arguments describe. *)
Definition library_accepts (a : Args.t) : Prop :=
  forall self, described a = OK self -> accepted a self.

(** The exception [e] is one that a library call raises. *)
Definition raised_by_library (e : exn) : Prop :=
  (exists config, super_init_error config = Some e)
  \/ (exists m, ctor_error m = Some e)
  \/ (exists num pad, embedding_without_dim num pad = e)
  \/ (exists self, init_weights_error self = Some e).

(** No library call raises an [AssertionError]. *)
Definition no_AssertionError_inside_constructors : Prop :=
  ~ raised_by_library AssertionError.

(** Every layer of [self] has positive sizes. *)
Definition well_sized_layers (self : NewsEncoder) : Prop :=
  forall name m, In (name, m) (named_children self) -> well_sized m.

(** The layer, if it is there, is usable; every layer of [self] is. *)
Definition usable_if_built (layer : option nnModule) : Prop :=
  forall m, layer = Some m -> usable m.

Definition usable_layers (self : NewsEncoder) : Prop :=
  forall name m, In (name, m) (named_children self) -> usable m.
End LibraryStatements.

(** * Properties *)

(** ** The constructor *)

Section InitFacts.
Context {T : Torch} {C : Constructors T}.

(** *** The encoder that the arguments describe *)

Ltac unfold_described :=
  unfold described, __init__, init_reduce_dim, init_cnn, init_category,
    init_attn_pooling, text_layers, no_layers, assert_cnn_args,
    assert_not_None, getitem, raise_if, new, rbind;
  cbn [permissive super_init_error ctor_error embedding_without_dim
       init_weights_error].

Lemma described_reduce_dim_inv (a : Args.t) rd wd d0 :
  @init_reduce_dim T permissive a = OK (rd, wd, d0) ->
  if Args.apply_reduce_dim a
  then Args.word_embed_dim a = Some d0
       /\ rd = Some (Linear (hidden_size (Args.config a)) d0)
       /\ wd = Some (Dropout (Args.dropout a))
  else rd = None /\ wd = None /\ d0 = hidden_size (Args.config a).
Proof.
  unfold init_reduce_dim.
  destruct (Args.apply_reduce_dim a).
  - destruct (Args.word_embed_dim a) as [w|]; cbn; [|discriminate].
    intros [= <- <- <-]. auto.
  - intros [= <- <- <-]. auto.
Qed.

Lemma described_cnn_inv (a : Args.t) d0 tc td ta sc sd sa d1 :
  @init_cnn T permissive a d0 = OK (tc, td, ta, (sc, sd, sa), d1) ->
  if Args.use_cls_embed a
  then d1 = d0 /\ (tc, td, ta) = no_layers /\ (sc, sd, sa) = no_layers
  else exists window_size,
      Args.window_size a = Some window_size
      /\ Args.num_cnn_filters a = Some d1
      /\ (tc, td, ta) = text_layers_described a d0 window_size d1
      /\ (sc, sd, sa) = if Args.use_sapo a
                        then text_layers_described a d0 window_size d1
                        else no_layers.
Proof.
  unfold init_cnn, assert_cnn_args.
  destruct (Args.use_cls_embed a); cbn.
  - intros [= <- <- <- <- <- <- <-]. auto.
  - destruct (Args.window_size a) as [k|]; [|discriminate].
    destruct (Args.num_cnn_filters a) as [f|]; [|discriminate].
    cbn. intros H. exists k.
    destruct (Args.use_sapo a); cbn in H; injection H as <- <- <- <- <- <- <-;
      auto.
Qed.

Lemma described_category_inv (a : Args.t) d1 ce cd :
  @init_category T permissive a d1 = OK (ce, cd) ->
  if Args.use_category a
  then exists emb d,
      ce = Some emb /\ is_embedding emb d
      /\ cd = Some (Sequential [Linear d d1; ReLU])
  else ce = None /\ cd = None.
Proof.
  unfold init_category.
  destruct (Args.use_category a); [|intros [= <- <-]; auto].
  destruct (Args.category_embed a) as [weights|]; cbn -[nth_error].
  - unfold getitem.
    destruct (nth_error (shape weights) 1) as [d|] eqn:Hd; [|discriminate].
    cbn. intros [= <- <-].
    exists (Embedding_from_pretrained weights false (Args.category_pad_token_id a)), d.
    repeat split. right. eauto.
  - destruct (Args.num_category a) as [n|]; [|discriminate].
    destruct (Args.category_embed_dim a) as [d|]; [|discriminate].
    cbn. intros [= <- <-].
    exists (Embedding n d (Args.category_pad_token_id a)), d.
    repeat split. left. eauto.
Qed.

(** The blocks of the described encoder, one by one. *)
Lemma described_inv (a : Args.t) (self : NewsEncoder) :
  described a = OK self ->
  exists d0,
    @init_reduce_dim T permissive a
    = OK (reduce_dim self, word_embed_dropout self, d0)
    /\ @init_cnn T permissive a d0
       = OK (title_cnn self, title_dropout self, title_additive_attn self,
             (sapo_cnn self, sapo_dropout self, sapo_additive_attn self),
             _embed_dim self)
    /\ @init_category T permissive a (_embed_dim self)
       = OK (category_embedding self, category_dense_layer self)
    /\ attn_pooling self = attn_pooling_described a (_embed_dim self)
    /\ roberta self = RobertaModel (Args.config a)
    /\ apply_reduce_dim self = Args.apply_reduce_dim a
    /\ use_cls_embed self = Args.use_cls_embed a
    /\ use_sapo self = Args.use_sapo a
    /\ use_category self = Args.use_category a.
Proof.
  unfold described, __init__, rbind. cbn [raise_if permissive super_init_error].
  unfold new at 1. cbn [permissive ctor_error].
  intros H.
  destruct (@init_reduce_dim T permissive a) as [[[rd wd] d0]|] eqn:Hr;
    [|discriminate].
  destruct (@init_cnn T permissive a d0)
    as [[[[[tc td] ta] [[sc sd] sa]] d1]|] eqn:Hc; [|discriminate].
  destruct (@init_category T permissive a d1) as [[ce cd]|] eqn:Hk;
    [|discriminate].
  unfold init_attn_pooling, new in H. cbn [permissive ctor_error] in H.
  exists d0.
  destruct (Args.use_sapo a || Args.use_category a) eqn:Hflags;
    cbn in H; injection H as <-; cbn;
    unfold attn_pooling_described; rewrite Hflags; auto 10.
Qed.

Lemma described_flags (a : Args.t) (self : NewsEncoder) :
  described a = OK self ->
  apply_reduce_dim self = Args.apply_reduce_dim a
  /\ use_cls_embed self = Args.use_cls_embed a
  /\ use_sapo self = Args.use_sapo a
  /\ use_category self = Args.use_category a
  /\ roberta self = RobertaModel (Args.config a).
Proof.
  intros H. apply described_inv in H.
  destruct H as (d0 & _ & _ & _ & _ & Hrob & Hr & Hc & Hs & Hk). auto.
Qed.

Lemma described_consistent (a : Args.t) (self : NewsEncoder) :
  described a = OK self -> consistent self.
Proof.
  intros H. apply described_inv in H.
  destruct H as (d0 & Hr & Hc & Hk & Hpool & Hrob & Ea & Ec & Es & Ek).
  apply described_reduce_dim_inv in Hr. apply described_cnn_inv in Hc.
  apply described_category_inv in Hk.
  exists (Args.config a), d0. rewrite Ea, Ec, Es, Ek.
  split; [exact Hrob|]. split; [|split; [|split]].
  - destruct (Args.apply_reduce_dim a).
    + destruct Hr as (_ & -> & ->). eauto.
    + apply Hr.
  - destruct (Args.use_cls_embed a).
    + apply Hc.
    + destruct Hc as (k & _ & _ & Ht & Hs). unfold text_layers_described in *.
      injection Ht as -> -> ->. split.
      * unfold cnn_encoder. eauto 7.
      * intros Hsapo. rewrite Hsapo in Hs. injection Hs as -> -> ->.
        unfold cnn_encoder. eauto 7.
  - intros Hcat. rewrite Hcat in Hk. destruct Hk as (emb & d & -> & He & ->).
    eauto.
  - rewrite Hpool. unfold attn_pooling_described. intros ->. eauto.
Qed.

(** *** The library's part *)

Lemma new_iff (m m' : nnModule) :
  new m = OK m' <-> m' = m /\ ctor_error m = None.
Proof.
  unfold new. destruct (ctor_error m) as [e|]; split.
  - discriminate.
  - intros (_ & H). discriminate H.
  - intros [= <-]. auto.
  - intros (-> & _). reflexivity.
Qed.

Ltac new_in H :=
  repeat match type of H with
         | context [ctor_error ?m] =>
             let E := fresh "E" in
             destruct (ctor_error m) eqn:E; cbn in H; [discriminate H|]
         end.

Ltac accept_with Hacc :=
  repeat match goal with
         | |- context [ctor_error ?m] =>
             rewrite (Hacc m) by (cbn; auto 20); cbn
         end.

Lemma init_reduce_dim_iff (a : Args.t) rd wd d0 :
  init_reduce_dim a = OK (rd, wd, d0)
  <-> @init_reduce_dim T permissive a = OK (rd, wd, d0)
      /\ (forall m, In m (layers_in rd ++ layers_in wd) -> ctor_error m = None).
Proof.
  unfold init_reduce_dim, new. cbn [permissive ctor_error].
  destruct (Args.apply_reduce_dim a).
  - destruct (Args.word_embed_dim a) as [w|]; cbn.
    + split.
      * intros H. new_in H. injection H as <- <- <-.
        split; [reflexivity|].
        cbn. intros m [<- | [<- | []]]; assumption.
      * intros ([= <- <- <-] & Hacc). accept_with Hacc. reflexivity.
    + split; [discriminate | intros (H & _); discriminate H].
  - split.
    + intros [= <- <- <-]. split; [reflexivity | intros m []].
    + intros (H & _). exact H.
Qed.

Lemma text_layers_iff (a : Args.t) (i k f : Z) cnn dropout attn :
  text_layers a i k f = OK (cnn, dropout, attn)
  <-> (cnn, dropout, attn) = text_layers_described a i k f
      /\ (forall m,
            In m (layers_in cnn ++ layers_in dropout ++ layers_in attn) ->
            ctor_error m = None).
Proof.
  unfold text_layers, text_layers_described, new, rbind. split.
  - intros H. new_in H. injection H as <- <- <-.
    split; [reflexivity|].
    cbn. intros m [<- | [<- | [<- | []]]]; assumption.
  - intros ([= -> -> ->] & Hacc). accept_with Hacc. reflexivity.
Qed.

Lemma described_text_layers (a : Args.t) (i k f : Z) :
  @text_layers T permissive a i k f = OK (text_layers_described a i k f).
Proof. reflexivity. Qed.

Lemma init_cnn_iff (a : Args.t) d0 tc td ta sc sd sa d1 :
  init_cnn a d0 = OK (tc, td, ta, (sc, sd, sa), d1)
  <-> @init_cnn T permissive a d0 = OK (tc, td, ta, (sc, sd, sa), d1)
      /\ (forall m,
            In m ((layers_in tc ++ layers_in td ++ layers_in ta)
                  ++ layers_in sc ++ layers_in sd ++ layers_in sa) ->
            ctor_error m = None).
Proof.
  unfold init_cnn, text_layers, assert_cnn_args, no_layers, new, rbind.
  cbn [permissive ctor_error].
  destruct (Args.use_cls_embed a); cbn [negb].
  - split.
    + intros [= <- <- <- <- <- <- <-]. split; [reflexivity | intros m []].
    + intros (H & _). exact H.
  - destruct (Args.window_size a) as [k|];
      [|split; [discriminate | intros (H & _); discriminate H]].
    destruct (Args.num_cnn_filters a) as [f|];
      [|split; [discriminate | intros (H & _); discriminate H]].
    destruct (Args.use_sapo a); split.
    + intros H. new_in H. injection H as <- <- <- <- <- <- <-.
      split; [reflexivity|].
      cbn. intros m Hm.
      repeat (destruct Hm as [<- | Hm]; [assumption|]). destruct Hm.
    + intros ([= <- <- <- <- <- <- <-] & Hacc). accept_with Hacc. reflexivity.
    + intros H. new_in H. injection H as <- <- <- <- <- <- <-.
      split; [reflexivity|].
      cbn. intros m Hm.
      repeat (destruct Hm as [<- | Hm]; [assumption|]). destruct Hm.
    + intros ([= <- <- <- <- <- <- <-] & Hacc). accept_with Hacc. reflexivity.
Qed.

Lemma init_category_iff (a : Args.t) d1 ce cd :
  init_category a d1 = OK (ce, cd)
  <-> @init_category T permissive a d1 = OK (ce, cd)
      /\ (forall m,
            In m (layers_in ce ++ layers_in cd
                  ++ match cd with
                     | Some (Sequential layers) => layers
                     | _ => []
                     end) ->
            ctor_error m = None).
Proof.
  unfold init_category, assert_not_None, getitem, new, rbind.
  cbn [permissive ctor_error embedding_without_dim].
  destruct (Args.use_category a).
  - destruct (Args.category_embed a) as [weights|].
    + destruct (nth_error (shape weights) 1) as [d|] eqn:Hd.
      * split.
        -- intros H. new_in H. injection H as <- <-.
           split; [reflexivity|].
           cbn. intros m Hm.
           repeat (destruct Hm as [<- | Hm]; [assumption|]). destruct Hm.
        -- intros ([= <- <-] & Hacc). accept_with Hacc. reflexivity.
      * split.
        -- intros H. new_in H. discriminate H.
        -- intros (H & _). discriminate H.
    + destruct (Args.num_category a) as [n|];
        [|split; [discriminate | intros (H & _); discriminate H]].
      destruct (Args.category_embed_dim a) as [d|];
        [|split; [discriminate | intros (H & _); discriminate H]].
      split.
      * intros H. new_in H. injection H as <- <-.
        split; [reflexivity|].
        cbn. intros m Hm.
        repeat (destruct Hm as [<- | Hm]; [assumption|]). destruct Hm.
      * intros ([= <- <-] & Hacc). accept_with Hacc. reflexivity.
  - split.
    + intros [= <- <-]. split; [reflexivity | intros m []].
    + intros (H & _). exact H.
Qed.

Lemma init_attn_pooling_iff (a : Args.t) (e : Z) ap :
  init_attn_pooling a e = OK ap
  <-> ap = attn_pooling_described a e
      /\ (forall m, In m (layers_in ap) -> ctor_error m = None).
Proof.
  unfold init_attn_pooling, attn_pooling_described, new, rbind.
  destruct (Args.use_sapo a || Args.use_category a).
  - split.
    + intros H. new_in H. injection H as <-.
      split; [reflexivity|]. cbn. intros m [<- | []]. assumption.
    + intros (-> & Hacc). accept_with Hacc. reflexivity.
  - split.
    + intros [= <-]. split; [reflexivity | intros m []].
    + intros (-> & _). reflexivity.
Qed.

Lemma described_attn_pooling (a : Args.t) (e : Z) :
  @init_attn_pooling T permissive a e = OK (attn_pooling_described a e).
Proof.
  unfold init_attn_pooling, attn_pooling_described.
  destruct (Args.use_sapo a || Args.use_category a); reflexivity.
Qed.

Lemma map_snd_child (name : string) (layer : option nnModule) :
  map snd (child name layer) = layers_in layer.
Proof. destruct layer; reflexivity. Qed.

Lemma built_layers_eq (self : NewsEncoder) :
  built_layers self
  = roberta self
      :: layers_in (reduce_dim self) ++ layers_in (word_embed_dropout self)
      ++ layers_in (title_cnn self) ++ layers_in (title_dropout self)
      ++ layers_in (title_additive_attn self)
      ++ layers_in (sapo_cnn self) ++ layers_in (sapo_dropout self)
      ++ layers_in (sapo_additive_attn self)
      ++ layers_in (category_embedding self)
      ++ layers_in (category_dense_layer self)
      ++ layers_in (attn_pooling self)
      ++ match category_dense_layer self with
         | Some (Sequential layers) => layers
         | _ => []
         end.
Proof.
  unfold built_layers, named_children.
  rewrite !map_app, !map_snd_child. cbn [map snd app].
  rewrite <- !app_assoc. reflexivity.
Qed.

(** [__init__] returns the encoder that the arguments describe, when the
    library accepts every call that building it takes, and returns
    nothing else. *)
Lemma init_iff (a : Args.t) (self : NewsEncoder) :
  __init__ a = OK self <-> described a = OK self /\ accepted a self.
Proof.
  split.
  - unfold __init__, rbind, raise_if. intros H.
    destruct (super_init_error (Args.config a)) eqn:Hsup; [discriminate|].
    destruct (new (RobertaModel (Args.config a))) as [rob|] eqn:Hrob;
      [|discriminate].
    apply new_iff in Hrob. destruct Hrob as (-> & Hrob).
    destruct (init_reduce_dim a) as [[[rd wd] d0]|] eqn:Hr; [|discriminate].
    destruct (init_cnn a d0) as [[[[[tc td] ta] [[sc sd] sa]] d1]|] eqn:Hc;
      [|discriminate].
    destruct (init_category a d1) as [[ce cd]|] eqn:Hk; [|discriminate].
    destruct (init_attn_pooling a d1) as [ap|] eqn:Hp; [|discriminate].
    cbn in H.
    match type of H with
    | context [init_weights_error ?s] =>
        destruct (init_weights_error s) eqn:Hw; [discriminate|]
    end.
    injection H as <-.
    apply init_reduce_dim_iff in Hr. destruct Hr as (Hr & Ar).
    apply init_cnn_iff in Hc. destruct Hc as (Hc & Ac).
    apply init_category_iff in Hk. destruct Hk as (Hk & Ak).
    apply init_attn_pooling_iff in Hp. destruct Hp as (-> & Ap).
    split.
    + unfold described, __init__, rbind, raise_if.
      cbn [permissive super_init_error init_weights_error].
      unfold new at 1. cbn [permissive ctor_error].
      rewrite Hr, Hc, Hk, described_attn_pooling. reflexivity.
    + split; [exact Hsup|]. split; [|exact Hw].
      intros m Hm. rewrite built_layers_eq in Hm. cbn [roberta reduce_dim
        word_embed_dropout title_cnn title_dropout title_additive_attn
        sapo_cnn sapo_dropout sapo_additive_attn category_embedding
        category_dense_layer attn_pooling] in Hm.
      destruct Hm as [<- | Hm]; [exact Hrob|].
      rewrite !in_app_iff in Hm.
      repeat destruct Hm as [Hm | Hm];
        first [ apply Ar; rewrite ?in_app_iff; tauto
              | apply Ac; rewrite ?in_app_iff; tauto
              | apply Ak; rewrite ?in_app_iff; tauto
              | apply Ap; exact Hm ].
  - intros (Hd & Hsup & Hacc & Hw).
    apply described_inv in Hd.
    destruct Hd as (d0 & Hr & Hc & Hk & Hpool & Hrob & Ea & Ec & Es & Ek).
    rewrite built_layers_eq in Hacc.
    destruct self as [rob ard rd wd ed cls sapo cat tc td ta sc sd sa ce cd ap].
    cbn in *. subst rob ard cls sapo cat.
    unfold __init__, rbind, raise_if. rewrite Hsup.
    assert (Hnew : new (RobertaModel (Args.config a))
                   = OK (RobertaModel (Args.config a))).
    { apply new_iff. split; [reflexivity|]. apply Hacc. left. reflexivity. }
    rewrite Hnew.
    assert (Hr' : init_reduce_dim a = OK (rd, wd, d0)).
    { apply init_reduce_dim_iff. split; [exact Hr|].
      intros m Hm. apply Hacc. right. rewrite !in_app_iff in *. tauto. }
    rewrite Hr'.
    assert (Hc' : init_cnn a d0 = OK (tc, td, ta, (sc, sd, sa), ed)).
    { apply init_cnn_iff. split; [exact Hc|].
      intros m Hm. apply Hacc. right. rewrite !in_app_iff in *. tauto. }
    rewrite Hc'.
    assert (Hk' : init_category a ed = OK (ce, cd)).
    { apply init_category_iff. split; [exact Hk|].
      intros m Hm. apply Hacc. right. rewrite !in_app_iff in *. tauto. }
    rewrite Hk'.
    assert (Hp' : init_attn_pooling a ed = OK ap).
    { apply init_attn_pooling_iff. split; [exact Hpool|].
      intros m Hm. apply Hacc. right. rewrite !in_app_iff. tauto. }
    rewrite Hp'. cbn. rewrite Hw. reflexivity.
Qed.

Lemma init_described (a : Args.t) (self : NewsEncoder) :
  __init__ a = OK self -> described a = OK self.
Proof. intros H. apply init_iff in H. apply H. Qed.

Lemma init_flags (a : Args.t) (self : NewsEncoder) :
  __init__ a = OK self ->
  apply_reduce_dim self = Args.apply_reduce_dim a
  /\ use_cls_embed self = Args.use_cls_embed a
  /\ use_sapo self = Args.use_sapo a
  /\ use_category self = Args.use_category a
  /\ roberta self = RobertaModel (Args.config a).
Proof. intros H. apply described_flags, init_described, H. Qed.

(** The constructor establishes the invariant that [forward] relies on. *)
Lemma init_consistent (a : Args.t) (self : NewsEncoder) :
  __init__ a = OK self -> consistent self.
Proof. intros H. apply (described_consistent a), init_described, H. Qed.

(** The library built every layer of an encoder that [__init__] returns. *)
Lemma init_built (a : Args.t) (self : NewsEncoder) (name : string)
      (m : nnModule) :
  __init__ a = OK self ->
  In (name, m) (named_children self) -> ctor_error m = None.
Proof.
  intros H Hin. apply init_iff in H. destruct H as (_ & _ & Hacc & _).
  apply Hacc. unfold built_layers. apply in_or_app. left.
  apply in_map_iff. exists (name, m). auto.
Qed.

(** *** Exceptions of the constructor *)











(** C8.  With [use_category] and a pretrained [category_embed], the
    argument [category_embed_dim] is ignored: the constructor gives the
    same result whatever is passed for it; the encoder built has the
    pretrained table as [category_embedding] and a
    [category_dense_layer] whose [Linear] takes
    [category_embed.shape[1]] input features; and the constructor does
    build an encoder when the table has a second dimension, the other
    two assertions hold and the library builds the layers. *)
Theorem pretrained_category_embed_dim (a : Args.t) (weights : Tensor) :
  Args.use_category a = true ->
  Args.category_embed a = Some weights ->
  (forall d, __init__ (Args.with_category_embed_dim a d) = __init__ a)
  /\ (forall self,
        __init__ a = OK self ->
        exists dim,
          nth_error (shape weights) 1 = Some dim
          /\ category_embedding self
             = Some (Embedding_from_pretrained
                       weights false (Args.category_pad_token_id a))
          /\ category_dense_layer self
             = Some (Sequential [Linear dim (embed_dim self); ReLU]))
  /\ (forall dim,
        nth_error (shape weights) 1 = Some dim ->
        ~ violates_reduce_dim a -> ~ violates_cnn a ->
        library_accepts a ->
        exists self, __init__ a = OK self).
Proof.
  intros Hcat Hce. split; [|split].
  - intros d. unfold __init__, init_reduce_dim, init_cnn, init_category,
      init_attn_pooling, text_layers, assert_cnn_args.
    destruct a as [cfg ard cls sapo cat pad q p ced ce nc ncf ws wed].
    cbn -[nth_error] in *. subst cat ce. reflexivity.
  - intros self H. apply init_described in H. revert H.
    unfold violates_reduce_dim, violates_cnn.
    destruct a as [cfg ard cls sapo cat pad q p ced ce nc ncf ws wed].
    cbn -[nth_error] in *. subst cat ce.
    unfold_described. cbn -[nth_error].
    destruct ard, wed as [wed|], cls, sapo, ws as [ws|], ncf as [ncf|];
      cbn -[nth_error]; try discriminate;
      destruct (nth_error (shape weights) 1) as [dim|]; cbn -[nth_error];
      try discriminate;
      intros [= <-]; exists dim; cbn -[nth_error]; auto.
  - intros dim Hd Hr Hc Hlib.
    assert (Hdesc : exists self, described a = OK self).
    { revert Hr Hc. unfold violates_reduce_dim, violates_cnn.
      destruct a as [cfg ard cls sapo cat pad q p ced ce nc ncf ws wed].
      cbn -[nth_error] in *. subst cat ce.
      unfold_described. cbn -[nth_error]. rewrite Hd.
      destruct ard, wed as [wed|], cls, sapo, ws as [ws|], ncf as [ncf|];
        cbn -[nth_error]; eauto; intros; exfalso; tauto. }
    destruct Hdesc as (self & Hself). exists self.
    apply init_iff. split; [exact Hself | exact (Hlib self Hself)].
Qed.
End InitFacts.
(** ** Runs *)

Section RunFacts.
Context {T : Torch} (B : Backend T).

Lemma run_bind {A C : Type} (p : Prog A) (f : A -> Prog C) (w : World B) :
  run B (bind p f) w
  = match run B p w with
    | (OK a, w1, tr1) =>
        let '(r, w2, tr2) := run B (f a) w1 in (r, w2, tr1 ++ tr2)
    | (Raised e, w1, tr1) => (Raised e, w1, tr1)
    end.
Proof.
  revert w. induction p as [a|e|attr m args k IH]; intros w; cbn.
  - destruct (run B (f a) w) as [[r w2] tr2]. reflexivity.
  - reflexivity.
  - destruct (handle B attr m args w) as [[t|e] w1]; [|reflexivity].
    rewrite IH.
    destruct (run B (k t) w1) as [[[a|e] w2] tr1]; [|reflexivity].
    destruct (run B (f a) w2) as [[r w3] tr2]. reflexivity.
Qed.

Lemma title_encoder_eq (self : NewsEncoder) (title_encoding title_attn_mask : Tensor) :
  title_encoder self title_encoding title_attn_mask
  = text_encoder self "title_cnn" "title_dropout" "title_additive_attn"
                 (title_cnn self) (title_dropout self) (title_additive_attn self)
                 (Some title_encoding) (Some title_attn_mask).
Proof. reflexivity. Qed.

Lemma sapo_encoder_eq (self : NewsEncoder) (sapo_encoding sapo_attn_mask : option Tensor) :
  sapo_encoder self sapo_encoding sapo_attn_mask
  = text_encoder self "sapo_cnn" "sapo_dropout" "sapo_additive_attn"
                 (sapo_cnn self) (sapo_dropout self) (sapo_additive_attn self)
                 sapo_encoding sapo_attn_mask.
Proof. reflexivity. Qed.

(** *** Programs that return *)

Lemma returns_ret {A : Type} (a : A) (w : World B) (Q : A -> Prop) :
  Q a -> returns B (Ret a) w Q.
Proof. intros H. exists a, w, []. auto. Qed.

Lemma returns_lift {A : Type} (r : result A) (a : A) (w : World B) (Q : A -> Prop) :
  r = OK a -> Q a -> returns B (lift r) w Q.
Proof. intros -> H. apply returns_ret, H. Qed.

Lemma returns_Call attr m args (w : World B) (Q : Tensor -> Prop) :
  (exists t w', handle B attr m args w = (OK t, w') /\ Q t) ->
  returns B (Call attr m args Ret) w Q.
Proof.
  intros (t & w' & Hh & Hq). exists t, w'. cbn. rewrite Hh. eauto.
Qed.

Lemma returns_call attr layer m args (w : World B) (Q : Tensor -> Prop) :
  layer = Some m ->
  (exists t w', handle B attr m args w = (OK t, w') /\ Q t) ->
  returns B (call attr layer args) w Q.
Proof. intros ->. apply returns_Call. Qed.

Lemma returns_bind {A C : Type} (p : Prog A) (f : A -> Prog C) (w : World B)
      (Q : A -> Prop) (R : C -> Prop) :
  returns B p w Q ->
  (forall a w1, Q a -> returns B (f a) w1 R) ->
  returns B (bind p f) w R.
Proof.
  intros (a & w1 & tr1 & Hp & Hq) Hf.
  destruct (Hf a w1 Hq) as (c & w2 & tr2 & Hfa & Hr).
  exists c, w2, (tr1 ++ tr2). rewrite run_bind, Hp, Hfa. auto.
Qed.
End RunFacts.

(** ** Shapes *)

Section ShapeFacts.
Context {T : Torch} {TL : TorchLaws T} {C : Constructors T}
        (B : Backend T) {BL : BackendLaws B}.

Lemma usable_layers_child (self : NewsEncoder) :
  usable_layers self ->
  usable (roberta self)
  /\ usable_if_built (reduce_dim self)
  /\ usable_if_built (word_embed_dropout self)
  /\ usable_if_built (title_cnn self)
  /\ usable_if_built (title_dropout self)
  /\ usable_if_built (title_additive_attn self)
  /\ usable_if_built (sapo_cnn self)
  /\ usable_if_built (sapo_dropout self)
  /\ usable_if_built (sapo_additive_attn self)
  /\ usable_if_built (category_embedding self)
  /\ usable_if_built (category_dense_layer self)
  /\ usable_if_built (attn_pooling self).
Proof.
  intros H. unfold usable_layers, named_children in H.
  split; [apply (H "roberta"%string); left; reflexivity|].
  repeat match goal with |- _ /\ _ => split end; intros m Hm;
    match type of Hm with
    | ?f self = Some m =>
        match goal with
        | H : context [child ?name (f self)] |- _ =>
            apply (H name m); rewrite Hm; right;
            rewrite ?in_app_iff; cbn; tauto
        end
    end.
Qed.

(** A text encoder on a valid text returns a tensor of shape
    [(batch_size, embed_dim)], on either pathway. *)
Lemma text_encoder_returns (self : NewsEncoder) config word_dim
      cnn_attr dropout_attr attn_attr cnn dropout attn
      encoding attn_mask batch_size length (w : World B) :
  roberta self = RobertaModel config ->
  usable (roberta self) ->
  usable_if_built (reduce_dim self) ->
  usable_if_built (word_embed_dropout self) ->
  usable_if_built cnn -> usable_if_built dropout -> usable_if_built attn ->
  (if apply_reduce_dim self
   then exists p,
       reduce_dim self = Some (Linear (hidden_size config) word_dim)
       /\ word_embed_dropout self = Some (Dropout p)
   else word_dim = hidden_size config) ->
  (if use_cls_embed self
   then _embed_dim self = word_dim
   else cnn_encoder cnn dropout attn word_dim (_embed_dim self)) ->
  0 < batch_size ->
  valid_text B self batch_size length encoding attn_mask ->
  returns B (text_encoder self cnn_attr dropout_attr attn_attr
                          cnn dropout attn encoding attn_mask) w
          (fun t => shape t = [batch_size; _embed_dim self]).
Proof.
  intros Hrob Urob Ured Udrop Ucnn Ucdrop Uattn Hred Hcnn Hb
         (Hlen & Henc & Hmask & Hvocab & Hacc).
  destruct encoding as [ids|]; [|contradiction].
  destruct attn_mask as [mask|]; [|contradiction].
  cbn in Henc, Hmask, Hvocab, Hacc. rewrite Hrob in Hvocab, Urob.
  assert (Hword : 0 < word_dim).
  { destruct (apply_reduce_dim self).
    - destruct Hred as (p & Hlin & _). apply Ured in Hlin. apply Hlin.
    - subst word_dim. apply Urob. }
  unfold text_encoder. rewrite Hrob.
  eapply returns_bind.
  { apply returns_Call.
    apply (roberta_shape "roberta"%string config ids mask batch_size length w);
      assumption. }
  cbn beta. intros x w1 Hx.
  eapply returns_bind with (Q := fun t => shape t = [batch_size; length; word_dim]).
  { destruct (apply_reduce_dim self).
    - destruct Hred as (p & Hlin & Hdrop).
      eapply returns_bind.
      + eapply returns_call; [exact Hlin|].
        apply (linear_shape _ _ word_dim x batch_size length); auto.
      + cbn beta. intros y w2 Hy.
        eapply returns_call; [exact Hdrop|].
        destruct (dropout_shape "word_embed_dropout"%string p y w2)
          as (t & w' & Hh & Ht); [auto | rewrite Hy; auto |].
        exists t, w'. split; [exact Hh|]. cbn beta. rewrite Ht. exact Hy.
    - subst word_dim. apply returns_ret. exact Hx. }
  cbn beta. intros y w2 Hy.
  destruct (use_cls_embed self).
  - destruct (select_first_shape y _ _ _ Hy Hlen) as (t & Hsel & Ht).
    eapply returns_lift; [exact Hsel|]. cbn beta. congruence.
  - destruct Hcnn as (k & p & q & -> & -> & ->).
    assert (Hout : 0 < _embed_dim self).
    { destruct (Ucnn _ eq_refl) as (_ & _ & Ho & _). exact Ho. }
    destruct (transpose_1_2_shape y _ _ _ Hy) as (yt & Hyt & Hs).
    eapply returns_bind
      with (Q := fun t => shape t = [batch_size; word_dim; length]);
      [eapply returns_lift; [exact Hyt | exact Hs]|].
    cbn beta. intros a w3 Hs3.
    eapply returns_bind.
    { eapply returns_call; [reflexivity|].
      apply (conv1d_shape cnn_attr word_dim (_embed_dim self) k a
                          batch_size length w3); auto. }
    cbn beta. intros c w4 Hc.
    destruct (transpose_1_2_shape c _ _ _ Hc) as (ct & Hct & Hcs).
    eapply returns_bind
      with (Q := fun t => shape t = [batch_size; length; _embed_dim self]);
      [eapply returns_lift; [exact Hct | exact Hcs]|].
    cbn beta. intros a0 w5 Hs5.
    eapply returns_bind with (Q := fun t => shape t = [batch_size; length; _embed_dim self]).
    { eapply returns_call; [reflexivity|].
      destruct (dropout_shape dropout_attr p a0 w5) as (t & w' & Hh & Ht);
        [auto | rewrite Hs5; auto |].
      exists t, w'. split; [exact Hh|]. cbn beta. congruence. }
    cbn beta. intros z w6 Hz.
    eapply returns_call; [reflexivity|].
    apply (attention_shape attn_attr q (_embed_dim self) z mask
                           batch_size length w6); auto.
Qed.

Lemma category_encoder_returns (self : NewsEncoder) category_encoding
      batch_size (w : World B) :
  usable_if_built (category_embedding self) ->
  usable_if_built (category_dense_layer self) ->
  (exists emb d,
      category_embedding self = Some emb /\ is_embedding emb d
      /\ category_dense_layer self
         = Some (Sequential [Linear d (_embed_dim self); ReLU])) ->
  0 < batch_size ->
  has_shape category_encoding [batch_size] ->
  all_in_vocab B (category_embedding self) category_encoding ->
  returns B (category_encoder self category_encoding) w
          (fun t => shape t = [batch_size; _embed_dim self]).
Proof.
  intros Uemb Udense (emb & d & Hemb & Hd & Hdense) Hb Hshape Hvocab.
  destruct category_encoding as [ids|]; [|contradiction].
  rewrite Hemb in Hvocab. cbn in Hshape, Hvocab.
  unfold category_encoder.
  eapply returns_bind with (Q := fun t => shape t = [batch_size; d]).
  - eapply returns_call; [exact Hemb|].
    destruct Hd as [(n & p & ->) | (weights & freeze & p & -> & Hw)].
    + apply (embedding_shape "category_embedding"%string n d p ids
                             batch_size w); auto.
    + apply (pretrained_shape "category_embedding"%string weights freeze p
                              ids batch_size d w); auto.
  - cbn beta. intros x w1 Hx.
    eapply returns_call; [exact Hdense|].
    apply (dense_relu_shape _ d (_embed_dim self) x batch_size w1); auto.
Qed.

(** [news_info] is a list of one to three tensors of shape
    [(batch_size, embed_dim)], and [title_repr] is one too. *)
Lemma collect_news_info_returns (self : NewsEncoder) batch_size
      title_encoding title_attn_mask sapo_encoding sapo_attn_mask
      category_encoding (w : World B) :
  consistent self ->
  usable_layers self ->
  valid_batch B self batch_size title_encoding title_attn_mask
              sapo_encoding sapo_attn_mask category_encoding ->
  returns B (collect_news_info self title_encoding title_attn_mask
                               sapo_encoding sapo_attn_mask category_encoding) w
          (fun '(title_repr, news_info) =>
             shape title_repr = [batch_size; _embed_dim self]
             /\ List.length news_info = Z.to_nat (num_components self)
             /\ Forall (fun t => shape t = [batch_size; _embed_dim self])
                       news_info).
Proof.
  intros (config & word_dim & Hrob & Hred & Hcnn & Hcat & _) Hu
         (Hb & (tl & Htitle) & Hsapo & Hcategory).
  destruct (usable_layers_child self Hu)
    as (Urob & Ured & Udrop & Utc & Utd & Uta & Usc & Usd & Usa & Uce & Ucd & _).
  unfold collect_news_info, num_components.
  eapply returns_bind
    with (Q := fun t => shape t = [batch_size; _embed_dim self]).
  { rewrite title_encoder_eq.
    eapply text_encoder_returns; eauto.
    destruct (use_cls_embed self); [exact Hcnn | apply Hcnn]. }
  cbn beta zeta. intros title_repr w1 Ht.
  eapply returns_bind
    with (Q := fun l =>
                 List.length l
                 = Z.to_nat (1 + (if use_sapo self then 1 else 0))
                 /\ Forall (fun t => shape t = [batch_size; _embed_dim self]) l).
  { destruct (use_sapo self) eqn:Hus.
    - destruct (Hsapo eq_refl) as (sl & Hs).
      eapply returns_bind
        with (Q := fun t => shape t = [batch_size; _embed_dim self]).
      + rewrite sapo_encoder_eq.
        eapply text_encoder_returns; eauto.
        destruct (use_cls_embed self); [exact Hcnn | apply Hcnn; reflexivity].
      + cbn beta. intros sapo_repr w2 Hsr. apply returns_ret.
        split; [reflexivity|]. repeat constructor; assumption.
    - apply returns_ret. split; [reflexivity|]. repeat constructor; assumption. }
  cbn beta. intros news_info w2 (Hne & Hall).
  eapply returns_bind
    with (Q := fun l =>
                 List.length l
                 = Z.to_nat (1 + (if use_sapo self then 1 else 0)
                             + (if use_category self then 1 else 0))
                 /\ Forall (fun t => shape t = [batch_size; _embed_dim self]) l).
  { destruct (use_category self) eqn:Huc.
    - destruct (Hcategory eq_refl) as (Hcs & Hcv).
      eapply returns_bind
        with (Q := fun t => shape t = [batch_size; _embed_dim self]).
      + apply category_encoder_returns; auto.
      + cbn beta. intros category_repr w3 Hcr. apply returns_ret. split.
        * rewrite length_app, Hne. cbn [List.length].
          destruct (use_sapo self); reflexivity.
        * apply Forall_app. split; [exact Hall|]. repeat constructor; assumption.
    - apply returns_ret. split; [|exact Hall].
      rewrite Hne. destruct (use_sapo self); reflexivity. }
  cbn beta. intros news_info' w3 (Hne' & Hall').
  apply returns_ret. auto.
Qed.

Lemma num_components_pos (self : NewsEncoder) : 0 < num_components self.
Proof.
  unfold num_components.
  destruct (use_sapo self), (use_category self); reflexivity.
Qed.

Lemma attentive_pooling_returns (self : NewsEncoder) batch_size
      title_repr news_info (w : World B) :
  consistent self ->
  usable_layers self ->
  0 < batch_size ->
  shape title_repr = [batch_size; _embed_dim self] ->
  news_info <> [] ->
  Forall (fun t => shape t = [batch_size; _embed_dim self]) news_info ->
  returns B (attentive_pooling self title_repr news_info) w
          (fun t => shape t = [batch_size; _embed_dim self]).
Proof.
  intros (config & word_dim & _ & _ & _ & _ & Hpool) Hu Hb Ht Hne Hall.
  destruct (usable_layers_child self Hu)
    as (_ & _ & _ & _ & _ & _ & _ & _ & _ & _ & _ & Uap).
  unfold attentive_pooling.
  destruct (use_category self || use_sapo self) eqn:Hflags;
    [|apply returns_ret; exact Ht].
  rewrite orb_comm in Hflags. destruct (Hpool Hflags) as (q & Hattn).
  destruct (stack_dim1_shape news_info _ _ Hne Hall) as (stacked & Hst & Hss).
  assert (Hlen : 0 < Z.of_nat (List.length news_info)).
  { destruct news_info; [contradiction | cbn; lia]. }
  eapply returns_bind
    with (Q := fun t => shape t = [batch_size; Z.of_nat (List.length news_info);
                                   _embed_dim self]);
    [eapply returns_lift; [exact Hst | exact Hss]|].
  cbn beta. intros s w1 Hs. rewrite Hs. cbn.
  eapply returns_call; [exact Hattn|].
  apply (attention_shape "attn_pooling"%string q (_embed_dim self) s _
                         batch_size (Z.of_nat (List.length news_info)) w1);
    auto.
  - apply ones_bool_shape; lia.
  - apply ones_accepted; assumption.
Qed.

(** [forward] returns, and what it returns has shape
    [(batch_size, embed_dim)]. *)
Lemma forward_returns (self : NewsEncoder) batch_size
      title_encoding title_attn_mask sapo_encoding sapo_attn_mask
      category_encoding (w : World B) :
  consistent self ->
  usable_layers self ->
  valid_batch B self batch_size title_encoding title_attn_mask
              sapo_encoding sapo_attn_mask category_encoding ->
  returns B (forward self title_encoding title_attn_mask
                     sapo_encoding sapo_attn_mask category_encoding) w
          (fun out => shape out = [batch_size; embed_dim self]).
Proof.
  intros Hc Hu Hv. unfold forward.
  eapply returns_bind.
  - apply collect_news_info_returns; eassumption.
  - intros [title_repr news_info] w1 (Ht & Hne & Hall).
    apply attentive_pooling_returns; try assumption.
    + apply Hv.
    + intros ->. cbn in Hne. pose proof (num_components_pos self). lia.
Qed.

(** The layers of an encoder that [__init__] returned are usable when
    their sizes are positive. *)
Lemma init_usable_layers (a : Args.t) (self : NewsEncoder) :
  __init__ a = OK self -> well_sized_layers self -> usable_layers self.
Proof.
  intros Hinit Hw name m Hin. split.
  - exact (init_built a self name m Hinit Hin).
  - exact (Hw name m Hin).
Qed.
End ShapeFacts.

(** ** The shape library keeps the contracts *)

Section ShapesLawful.
Import Shapes.
Local Existing Instance constructors.

Lemma shape_eqb_refl (s : tensor) : shape_eqb s s = true.
Proof.
  unfold shape_eqb. destruct (list_eq_dec N.eq_dec s s); congruence.
Qed.

Lemma shape_inj (s t : tensor) : map Z.of_N s = map Z.of_N t -> s = t.
Proof.
  revert t. induction s as [|n s IH]; intros [|m t] H; try discriminate H.
  - reflexivity.
  - cbn in H. injection H as Hn Hs. apply N2Z.inj in Hn.
    rewrite Hn, (IH t Hs). reflexivity.
Qed.

Lemma forallb_shape_eqb (t : tensor) (ts : list tensor) :
  Forall (fun u => u = t) ts -> forallb (shape_eqb t) ts = true.
Proof.
  induction 1 as [|u ts Hu _ IH]; cbn; [reflexivity|].
  subst u. rewrite shape_eqb_refl. exact IH.
Qed.

(** A tensor whose shape is given as integers. *)
Ltac shape_inv H :=
  match type of H with
  | map Z.of_N ?t = ?s =>
      let n := fresh "n" in
      let E := fresh "E" in
      destruct t as [|n t]; cbn [map] in H; try discriminate H;
      try (injection H as E H; try shape_inv H)
  end.

Lemma torch_laws : TorchLaws torch.
Proof.
  split; cbn.
  - intros t. induction t as [|n t IH]; constructor; [lia | exact IH].
  - intros t b l d H Hl. shape_inv H. subst. unfold shape_select_first.
    replace (0 <? n0)%N with true by (symmetry; apply N.ltb_lt; lia).
    eauto.
  - intros t b l d H. shape_inv H. subst. cbn. eauto.
  - intros ts b d Hne Hall. destruct ts as [|t ts]; [contradiction|].
    inversion Hall as [|? ? Ht Hts]; subst. unfold shape_stack_dim1.
    rewrite forallb_shape_eqb.
    + shape_inv Ht. subst. eexists. split; [reflexivity|].
      cbn [map List.length]. rewrite nat_N_Z. reflexivity.
    + eapply Forall_impl; [|exact Hts]. cbn beta.
      intros u Hu. apply shape_inj. congruence.
  - intros b n Hb Hn. rewrite !Z2N.id by assumption. reflexivity.
Qed.

Lemma backend_laws : BackendLaws backend.
Proof.
  split; unfold usable; cbn -[nth_error].
  - intros _ config ids mask b l w (_ & Hh) Hb Hl Hi Hm _ _.
    assert (mask = ids) as -> by (apply shape_inj; congruence).
    shape_inv Hi. subst. rewrite shape_eqb_refl.
    replace (0 <? n0)%N with true by (symmetry; apply N.ltb_lt; lia).
    replace (0 <? hidden_size config) with true
      by (symmetry; apply Z.ltb_lt; assumption).
    cbn. eexists. eexists. split; [reflexivity|].
    cbn. rewrite Z2N.id by lia. reflexivity.
  - intros _ i o x b l w (_ & Hi & Ho) Hb Hl Hx.
    shape_inv Hx. subst. unfold on_last_dim. cbn [rev app].
    rewrite Z.eqb_refl.
    replace (0 <=? o) with true by (symmetry; apply Z.leb_le; lia).
    cbn. eexists. eexists. split; [reflexivity|].
    cbn. rewrite Z2N.id by lia. reflexivity.
  - intros _ p x w _ _. eauto.
  - intros _ i o k x b l w (_ & Hi & Ho & Hk) Hb Hl Hx.
    shape_inv Hx. subst. rewrite Z.eqb_refl.
    replace (0 <? n1)%N with true by (symmetry; apply N.ltb_lt; lia).
    replace (0 <? k) with true by (symmetry; apply Z.ltb_lt; assumption).
    replace (0 <=? o) with true by (symmetry; apply Z.leb_le; lia).
    cbn. eexists. eexists. split; [reflexivity|].
    cbn. rewrite Z2N.id by lia. reflexivity.
  - intros _ q d e mask b l w _ Hb Hl He Hm _.
    shape_inv He. subst.
    assert (mask = [n; n0]) as -> by (apply shape_inj; exact Hm).
    rewrite shape_eqb_refl, Z.eqb_refl.
    replace (0 <? n0)%N with true by (symmetry; apply N.ltb_lt; lia).
    cbn. eauto.
  - intros _ n d p ids b w (_ & _ & Hd) Hb Hi _.
    replace (0 <=? d) with true by (symmetry; apply Z.leb_le; lia).
    eexists. eexists. split; [reflexivity|].
    rewrite map_app, Hi. cbn. rewrite Z2N.id by lia. reflexivity.
  - intros _ weights freeze p ids b d w _ Hb Hi _ Hd.
    rewrite nth_error_map in Hd.
    destruct (nth_error weights 1) as [nd|]; [|discriminate Hd].
    injection Hd as <-.
    eexists. eexists. split; [reflexivity|].
    rewrite map_app, Hi. reflexivity.
  - intros _ i o x b w (_ & (Hi & Ho) & _) Hb Hx.
    shape_inv Hx. subst. unfold on_last_dim. cbn [rev app].
    rewrite Z.eqb_refl.
    replace (0 <=? o) with true by (symmetry; apply Z.leb_le; lia).
    cbn. eexists. eexists. split; [reflexivity|].
    cbn. rewrite Z2N.id by lia. reflexivity.
  - auto.
Qed.
End ShapesLawful.

(** ** The output of [forward] *)

Section ForwardClaims.
Context {T : Torch} {TL : TorchLaws T} {C : Constructors T}
        (B : Backend T) {BL : BackendLaws B}.

(** C1.  For the encoder that [__init__] builds from any arguments that
    give every layer positive sizes (and a pretrained category table two
    dimensions), and for every valid batch that is not empty, [forward]
    returns one tensor, of rank 2 and shape [(batch_size, embed_dim)],
    where [embed_dim] is the property of the encoder, set by the
    constructor and the same for every input. *)
Theorem forward_output_shape (a : Args.t) (self : NewsEncoder) (batch_size : Z)
        (title_encoding title_attn_mask : Tensor)
        (sapo_encoding sapo_attn_mask category_encoding : option Tensor)
        (w : World B) :
  __init__ a = OK self ->
  well_sized_layers self ->
  valid_batch B self batch_size title_encoding title_attn_mask
              sapo_encoding sapo_attn_mask category_encoding ->
  exists out w' tr,
    run B (forward self title_encoding title_attn_mask
                   sapo_encoding sapo_attn_mask category_encoding) w
    = (OK out, w', tr)
    /\ shape out = [batch_size; embed_dim self].
Proof.
  intros Hinit Hsized Hvalid.
  exact (forward_returns B self batch_size _ _ _ _ _ w
                         (init_consistent a self Hinit)
                         (init_usable_layers a self Hinit Hsized) Hvalid).
Qed.

(** C6.  An encoder built with [use_sapo = False] and
    [use_category = False], whose layers have positive sizes, returns a
    result, raising nothing, when [forward] is called on a valid title
    batch that is not empty with [sapo_encoding], [sapo_attn_mask] and
    [category_encoding] left as [None]. *)
Theorem forward_without_sapo_and_category
        (a : Args.t) (self : NewsEncoder) (batch_size title_length : Z)
        (title_encoding title_attn_mask : Tensor) (w : World B) :
  __init__ a = OK self ->
  Args.use_sapo a = false ->
  Args.use_category a = false ->
  well_sized_layers self ->
  0 < batch_size ->
  valid_text B self batch_size title_length
             (Some title_encoding) (Some title_attn_mask) ->
  exists out w' tr,
    run B (forward self title_encoding title_attn_mask None None None) w
    = (OK out, w', tr).
Proof.
  intros Hinit Hsapo Hcat Hsized Hb Htitle.
  destruct (init_flags a self Hinit) as (_ & _ & Hs & Hc & _).
  rewrite Hsapo in Hs. rewrite Hcat in Hc.
  destruct (forward_returns B self batch_size title_encoding title_attn_mask
                            None None None w) as (out & w' & tr & Hrun & _).
  - apply (init_consistent a), Hinit.
  - apply (init_usable_layers a), Hsized. exact Hinit.
  - split; [exact Hb|]. split; [eauto|]. split; intros H; congruence.
  - eauto.
Qed.
End ForwardClaims.

(** ** The calls of a run *)

Section CallFacts.
Context {T : Torch} (B : Backend T).

Lemma run_Ret_inv {A : Type} (a b : A) (w w' : World B) tr :
  run B (Ret a) w = (OK b, w', tr) -> b = a /\ w' = w /\ tr = [].
Proof. cbn. intros [= -> -> <-]. auto. Qed.

Lemma run_lift_inv {A : Type} (r : result A) (a : A) (w w' : World B) tr :
  run B (lift r) w = (OK a, w', tr) -> r = OK a /\ w' = w /\ tr = [].
Proof.
  destruct r as [b|e]; cbn; [|discriminate]. intros [= -> -> <-]. auto.
Qed.

Lemma run_Call_inv attr m args (t : Tensor) (w w' : World B) tr :
  run B (Call attr m args Ret) w = (OK t, w', tr) ->
  handle B attr m args w = (OK t, w') /\ tr = [called attr m args t].
Proof.
  cbn. destruct (handle B attr m args w) as [[x|e] w1]; [|discriminate].
  intros [= -> -> <-]. auto.
Qed.

Lemma run_call_inv attr layer args (t : Tensor) (w w' : World B) tr :
  run B (call attr layer args) w = (OK t, w', tr) ->
  exists m,
    layer = Some m
    /\ handle B attr m args w = (OK t, w') /\ tr = [called attr m args t].
Proof.
  destruct layer as [m|]; [|discriminate].
  intros H. apply run_Call_inv in H. eauto.
Qed.

Lemma run_bind_inv {A C : Type} (p : Prog A) (f : A -> Prog C)
      (c : C) (w w' : World B) tr :
  run B (bind p f) w = (OK c, w', tr) ->
  exists a w1 tr1 tr2,
    run B p w = (OK a, w1, tr1)
    /\ run B (f a) w1 = (OK c, w', tr2)
    /\ tr = tr1 ++ tr2.
Proof.
  rewrite run_bind.
  destruct (run B p w) as [[[a|e] w1] tr1]; [|discriminate].
  destruct (run B (f a) w1) as [[r w2] tr2] eqn:Hf.
  intros [= -> -> <-]. exists a, w1, tr1, tr2. auto.
Qed.

(** The first call of a program that starts with a call. *)
Lemma run_Call_head {A : Type} attr m args (k : Tensor -> Prog A) (w : World B) :
  exists r rest,
    trace_of B (run B (Call attr m args k) w)
    = {| ev_attr := attr; ev_module := m; ev_args := args; ev_result := r |}
        :: rest.
Proof.
  cbn. destruct (handle B attr m args w) as [[t|e] w1].
  - destruct (run B (k t) w1) as [[ra w2] tr]. cbn. eauto.
  - cbn. eauto.
Qed.

(** The word embedding steps of a text encoder that returned. *)
Lemma word_embed_inv (self : NewsEncoder) encoding attn_mask
      (lm word_embed : Tensor) (w w0 w' : World B) tr :
  handle B "roberta" (roberta self) [encoding; attn_mask] w = (OK lm, w0) ->
  run B (if apply_reduce_dim self then
           word_embed <- call "reduce_dim" (reduce_dim self) [Some lm] ;;
           call "word_embed_dropout" (word_embed_dropout self) [Some word_embed]
         else Ret lm)%prog w0
  = (OK word_embed, w', tr) ->
  word_embed_of B self encoding attn_mask w word_embed w'
                (called "roberta" (roberta self) [encoding; attn_mask] lm :: tr).
Proof.
  intros Hlm Hrest. exists lm, w0. split; [exact Hlm|].
  destruct (apply_reduce_dim self).
  - apply run_bind_inv in Hrest.
    destruct Hrest as (reduced & w1 & tr2 & tr3 & Hlin & Hdrop & ->).
    apply run_call_inv in Hlin. destruct Hlin as (linear & Hl & Hlin & ->).
    apply run_call_inv in Hdrop. destruct Hdrop as (drop & Hd & Hdrop & ->).
    exists linear, drop, reduced, w1. auto.
  - apply run_Ret_inv in Hrest. destruct Hrest as (-> & -> & ->). auto.
Qed.

(** A text encoder that returned took the pathway that [use_cls_embed]
    selects. *)
Lemma text_encoder_inv (self : NewsEncoder) config word_dim
      cnn_attr dropout_attr attn_attr cnn dropout attn
      encoding attn_mask (repr : Tensor) (w w' : World B) tr :
  roberta self = RobertaModel config ->
  (if apply_reduce_dim self
   then exists p,
       reduce_dim self = Some (Linear (hidden_size config) word_dim)
       /\ word_embed_dropout self = Some (Dropout p)
   else word_dim = hidden_size config) ->
  (if use_cls_embed self
   then _embed_dim self = word_dim
   else cnn_encoder cnn dropout attn word_dim (_embed_dim self)) ->
  run B (text_encoder self cnn_attr dropout_attr attn_attr
                      cnn dropout attn encoding attn_mask) w
  = (OK repr, w', tr) ->
  if use_cls_embed self
  then cls_pathway B self encoding attn_mask w repr w' tr
  else cnn_pathway B self cnn_attr dropout_attr attn_attr
                   encoding attn_mask w repr w' tr.
Proof.
  intros Hrob Hred Hcnn H. unfold text_encoder in H.
  apply run_bind_inv in H.
  destruct H as (lm & w0 & tr0 & tr1 & Hlm & H & ->).
  apply run_Call_inv in Hlm. destruct Hlm as (Hlm & ->).
  apply run_bind_inv in H.
  destruct H as (word_embed & w1 & tr2 & tr3 & Hwe & H & ->).
  pose proof (word_embed_inv self _ _ _ _ _ _ _ _ Hlm Hwe) as Hword.
  destruct (use_cls_embed self).
  - apply run_lift_inv in H. destruct H as (Hsel & -> & ->).
    exists word_embed. cbn [app]. rewrite app_nil_r.
    split; [exact Hword|]. split; [exact Hsel|].
    destruct Hword as (lm' & w0' & _ & Hshape).
    constructor; [cbn; rewrite Hrob; reflexivity|].
    destruct (apply_reduce_dim self).
    + destruct Hred as (p & Hl & Hd).
      destruct Hshape as (linear & drop & reduced & w2 & Hl' & Hd' & _ & _ & Htr).
      injection Htr as _ ->.
      rewrite Hl in Hl'. rewrite Hd in Hd'.
      injection Hl' as <-. injection Hd' as <-.
      repeat constructor.
    + destruct Hshape as (_ & _ & Htr). injection Htr as _ ->. constructor.
  - destruct Hcnn as (k & p & q & -> & -> & ->).
    apply run_bind_inv in H.
    destruct H as (x & w2 & tr4 & tr5 & Hx & H & ->).
    apply run_lift_inv in Hx. destruct Hx as (Hx & -> & ->).
    apply run_bind_inv in H.
    destruct H as (conv_out & w3 & tr6 & tr7 & Hconv & H & ->).
    apply run_Call_inv in Hconv. destruct Hconv as (Hconv & ->).
    apply run_bind_inv in H.
    destruct H as (y & w4 & tr8 & tr9 & Hy & H & ->).
    apply run_lift_inv in Hy. destruct Hy as (Hy & -> & ->).
    apply run_bind_inv in H.
    destruct H as (context & w5 & tr10 & tr11 & Hdrop & H & ->).
    apply run_Call_inv in Hdrop. destruct Hdrop as (Hdrop & ->).
    apply run_Call_inv in H. destruct H as (Hattn & ->).
    exists word_embed, w1,
      (called "roberta" (roberta self) [encoding; attn_mask] lm :: tr2),
      x, word_dim, k, conv_out, w3, y, p, context, w5, q.
    repeat (split; [assumption|]). reflexivity.
Qed.
End CallFacts.


(** ** Which layers [forward] calls *)

Section PathwayClaims.
Context {T : Torch} {C : Constructors T} (B : Backend T).

Lemma trace_bind_OK {A R : Type} (p : Prog A) (f : A -> Prog R)
      (a : A) (w w1 : World B) tr1 :
  run B p w = (OK a, w1, tr1) ->
  trace_of B (run B (bind p f) w) = tr1 ++ trace_of B (run B (f a) w1).
Proof.
  intros Hp. rewrite run_bind, Hp.
  destruct (run B (f a) w1) as [[r w2] tr2]. reflexivity.
Qed.

Lemma trace_bind_ext {A R : Type} (p : Prog A) (f : A -> Prog R) (w : World B) :
  exists ext,
    trace_of B (run B (bind p f) w) = trace_of B (run B p w) ++ ext.
Proof.
  rewrite run_bind.
  destruct (run B p w) as [[[a|e] w1] tr1].
  - destruct (run B (f a) w1) as [[r w2] tr2]. cbn. eauto.
  - exists []. cbn. rewrite app_nil_r. reflexivity.
Qed.

Lemma init_attn_pooling_eq (a : Args.t) (self : NewsEncoder) :
  __init__ a = OK self ->
  attn_pooling self = attn_pooling_described a (_embed_dim self).
Proof.
  intros H. apply init_described, described_inv in H.
  destruct H as (d0 & _ & _ & _ & Hp & _). exact Hp.
Qed.

(** C4.  The first call of every run of [forward] is the language model
    [self.roberta] on [(title_encoding, title_attn_mask)]; and with
    [use_sapo], once the title encoder has returned, the next call is the
    same [self.roberta] on [(sapo_encoding, sapo_attn_mask)]: each text
    goes through the language model before anything else is done with
    it. *)
Theorem texts_go_through_roberta_first
        (self : NewsEncoder) (title_encoding title_attn_mask : Tensor)
        (sapo_encoding sapo_attn_mask category_encoding : option Tensor)
        (w : World B) :
  (exists r rest,
      trace_of B (run B (forward self title_encoding title_attn_mask
                                 sapo_encoding sapo_attn_mask
                                 category_encoding) w)
      = {| ev_attr := "roberta"; ev_module := roberta self;
           ev_args := [Some title_encoding; Some title_attn_mask];
           ev_result := r |} :: rest)
  /\ (use_sapo self = true ->
      forall title_repr w1 tr1,
        run B (title_encoder self title_encoding title_attn_mask) w
        = (OK title_repr, w1, tr1) ->
        exists r rest,
          trace_of B (run B (forward self title_encoding title_attn_mask
                                     sapo_encoding sapo_attn_mask
                                     category_encoding) w)
          = tr1 ++ {| ev_attr := "roberta"; ev_module := roberta self;
                      ev_args := [sapo_encoding; sapo_attn_mask];
                      ev_result := r |} :: rest).
Proof.
  split.
  - unfold forward, collect_news_info, title_encoder. cbn [bind].
    apply run_Call_head.
  - intros Hsapo title_repr w1 tr1 Htitle.
    unfold forward.
    match goal with
    | |- context [run B (bind ?p ?f) w] =>
        destruct (trace_bind_ext p f w) as (ext & ->)
    end.
    unfold collect_news_info.
    rewrite (trace_bind_OK _ _ _ _ _ _ Htitle).
    rewrite Hsapo. unfold sapo_encoder. cbn [bind].
    match goal with
    | |- context [run B (Call ?attr ?m ?args ?k) w1] =>
        destruct (run_Call_head B attr m args k w1) as (r & rest & ->)
    end.
    exists r, (rest ++ ext). rewrite <- app_assoc. reflexivity.
Qed.

Lemma optional_component_inv (flag : bool) (p : Prog Tensor)
      (news_info news_info' : list Tensor) (w w' : World B) tr :
  run B (if flag
         then (repr <- p ;; Ret (news_info ++ [repr]))%prog
         else Ret news_info) w
  = (OK news_info', w', tr) ->
  exists reprs,
    optional_component B flag p w reprs w' tr
    /\ news_info' = news_info ++ reprs.
Proof.
  unfold optional_component. destruct flag; intros H.
  - apply run_bind_inv in H. destruct H as (repr & w1 & tr1 & tr2 & Hp & H & ->).
    apply run_Ret_inv in H. destruct H as (-> & -> & ->).
    exists [repr]. rewrite app_nil_r. eauto.
  - apply run_Ret_inv in H. destruct H as (-> & -> & ->).
    exists []. rewrite app_nil_r. auto.
Qed.

(** C3.  The components of [news_info], which is what the last step of
    [forward] turns into the output, follow the flags given to the
    constructor and nothing else: the title representation is always
    the first; the sapo representation is there if and only if
    [use_sapo]; the category representation is there if and only if
    [use_category].  An encoder whose flag is off is not run. *)
Theorem news_info_components
        (a : Args.t) (self : NewsEncoder)
        (title_encoding title_attn_mask : Tensor)
        (sapo_encoding sapo_attn_mask category_encoding : option Tensor)
        (w w' : World B) (title_repr : Tensor) (news_info : list Tensor)
        (tr : list CallEvent) :
  __init__ a = OK self ->
  run B (collect_news_info self title_encoding title_attn_mask
                           sapo_encoding sapo_attn_mask category_encoding) w
  = (OK (title_repr, news_info), w', tr) ->
  exists w1 tr1 sapo_reprs w2 tr2 category_reprs tr3,
    run B (title_encoder self title_encoding title_attn_mask) w
    = (OK title_repr, w1, tr1)
    /\ optional_component B (Args.use_sapo a)
                          (sapo_encoder self sapo_encoding sapo_attn_mask)
                          w1 sapo_reprs w2 tr2
    /\ optional_component B (Args.use_category a)
                          (category_encoder self category_encoding)
                          w2 category_reprs w' tr3
    /\ news_info = title_repr :: sapo_reprs ++ category_reprs
    /\ tr = tr1 ++ tr2 ++ tr3
    /\ run B (forward self title_encoding title_attn_mask
                      sapo_encoding sapo_attn_mask category_encoding) w
       = (let '(r, w'', tr') :=
            run B (attentive_pooling self title_repr news_info) w' in
          (r, w'', tr ++ tr')).
Proof.
  intros Hinit Hrun.
  destruct (init_flags a self Hinit) as (_ & _ & <- & <- & _).
  assert (Hfwd : run B (forward self title_encoding title_attn_mask
                                sapo_encoding sapo_attn_mask category_encoding) w
                 = (let '(r, w'', tr') :=
                      run B (attentive_pooling self title_repr news_info) w' in
                    (r, w'', tr ++ tr'))).
  { unfold forward. rewrite run_bind, Hrun. reflexivity. }
  unfold collect_news_info in Hrun.
  apply run_bind_inv in Hrun.
  destruct Hrun as (t & w1 & tr1 & tr1' & Htitle & Hrun & ->).
  cbn zeta in Hrun. apply run_bind_inv in Hrun.
  destruct Hrun as (n1 & w2 & tr2 & tr2' & Hsapo & Hrun & ->).
  apply run_bind_inv in Hrun.
  destruct Hrun as (n2 & w3 & tr3 & tr3' & Hcat & Hrun & ->).
  apply run_Ret_inv in Hrun. destruct Hrun as (Heq & -> & ->).
  injection Heq as <- ->.
  apply optional_component_inv in Hsapo. destruct Hsapo as (sr & Hsapo & ->).
  apply optional_component_inv in Hcat. destruct Hcat as (cr & Hcat & ->).
  exists w1, tr1, sr, w2, tr2, cr, tr3.
  rewrite app_nil_r in *. repeat (split; [assumption || reflexivity|]).
  exact Hfwd.
Qed.

(** C9.  Two runs of [forward] from the same state give the same outcome
    (value or exception, final state and calls) when the encoder has
    [use_sapo = False] and the runs differ in [sapo_encoding] and
    [sapo_attn_mask] only, and when the encoder has
    [use_category = False] and the runs differ in [category_encoding]
    only. *)
Theorem inactive_inputs_do_not_interfere
        (self : NewsEncoder) (title_encoding title_attn_mask : Tensor)
        (w : World B) :
  (use_sapo self = false ->
   forall category_encoding sapo_encoding sapo_attn_mask
          sapo_encoding' sapo_attn_mask',
     run B (forward self title_encoding title_attn_mask
                    sapo_encoding sapo_attn_mask category_encoding) w
     = run B (forward self title_encoding title_attn_mask
                      sapo_encoding' sapo_attn_mask' category_encoding) w)
  /\ (use_category self = false ->
      forall sapo_encoding sapo_attn_mask category_encoding category_encoding',
        run B (forward self title_encoding title_attn_mask
                       sapo_encoding sapo_attn_mask category_encoding) w
        = run B (forward self title_encoding title_attn_mask
                         sapo_encoding sapo_attn_mask category_encoding') w).
Proof.
  split; intros Hflag; intros; unfold forward, collect_news_info;
    rewrite Hflag; reflexivity.
Qed.

(** C2, as the code has it.  When [use_sapo] or [use_category] is set,
    the output of [forward] is what the [AdditiveAttention] layer
    [attn_pooling] returns, in the last call of the run, on the
    representations of [news_info] stacked along dimension 1 and a mask
    of ones.  When neither is set, the constructor builds no
    [attn_pooling] and [forward] is the title encoder: same value, same
    final state, same calls. *)
Theorem forward_attentive_pooling
        (a : Args.t) (self : NewsEncoder)
        (title_encoding title_attn_mask : Tensor)
        (sapo_encoding sapo_attn_mask category_encoding : option Tensor)
        (w : World B) :
  __init__ a = OK self ->
  if Args.use_sapo a || Args.use_category a
  then attn_pooling self
       = Some (AdditiveAttention (Args.query_dim a) (embed_dim self))
       /\ forall out w' tr,
           run B (forward self title_encoding title_attn_mask
                          sapo_encoding sapo_attn_mask category_encoding) w
           = (OK out, w', tr) ->
           exists title_repr news_info w1 tr1 stacked shape0 shape1,
             run B (collect_news_info self title_encoding title_attn_mask
                                      sapo_encoding sapo_attn_mask
                                      category_encoding) w
             = (OK (title_repr, news_info), w1, tr1)
             /\ stack_dim1 news_info = OK stacked
             /\ getitem (shape stacked) 0 = OK shape0
             /\ getitem (shape stacked) 1 = OK shape1
             /\ handle B "attn_pooling"
                       (AdditiveAttention (Args.query_dim a) (embed_dim self))
                       [Some stacked; Some (ones_bool shape0 shape1)] w1
                = (OK out, w')
             /\ tr = tr1
                     ++ [called "attn_pooling"
                                (AdditiveAttention (Args.query_dim a)
                                                   (embed_dim self))
                                [Some stacked; Some (ones_bool shape0 shape1)]
                                out]
  else attn_pooling self = None
       /\ run B (forward self title_encoding title_attn_mask
                         sapo_encoding sapo_attn_mask category_encoding) w
          = run B (title_encoder self title_encoding title_attn_mask) w.
Proof.
  intros Hinit.
  pose proof (init_attn_pooling_eq a self Hinit) as Hpool.
  destruct (init_flags a self Hinit) as (_ & _ & Hs & Hc & _).
  unfold attn_pooling_described in Hpool.
  destruct (Args.use_sapo a || Args.use_category a) eqn:Hflags.
  - split; [exact Hpool|].
    intros out w' tr Hrun. unfold forward in Hrun.
    apply run_bind_inv in Hrun.
    destruct Hrun as ([title_repr news_info] & w1 & tr1 & tr2 & Hcol & Hrun & ->).
    unfold attentive_pooling in Hrun.
    rewrite Hs, Hc, orb_comm, Hflags in Hrun.
    apply run_bind_inv in Hrun.
    destruct Hrun as (stacked & w2 & tr3 & tr4 & Hst & Hrun & ->).
    apply run_lift_inv in Hst. destruct Hst as (Hst & -> & ->).
    apply run_bind_inv in Hrun.
    destruct Hrun as (shape0 & w3 & tr5 & tr6 & H0 & Hrun & ->).
    apply run_lift_inv in H0. destruct H0 as (H0 & -> & ->).
    apply run_bind_inv in Hrun.
    destruct Hrun as (shape1 & w4 & tr7 & tr8 & H1 & Hrun & ->).
    apply run_lift_inv in H1. destruct H1 as (H1 & -> & ->).
    rewrite Hpool in Hrun. apply run_Call_inv in Hrun.
    destruct Hrun as (Hcall & ->).
    exists title_repr, news_info, w1, tr1, stacked, shape0, shape1.
    auto 10.
  - split; [exact Hpool|].
    apply orb_false_elim in Hflags. destruct Hflags as (Hsa & Hca).
    rewrite Hsa in Hs. rewrite Hca in Hc.
    unfold forward, collect_news_info, attentive_pooling.
    rewrite Hs, Hc. cbn [orb]. rewrite !run_bind.
    destruct (run B (title_encoder self title_encoding title_attn_mask) w)
      as [[[t|e] w1] tr1]; cbn; rewrite ?app_nil_r; reflexivity.
Qed.

(** C5, as the code has it.  For the encoder that [__init__] builds,
    [use_cls_embed] selects the pathway of each text encoder that
    returns.  With [use_cls_embed = False] the representation is
    computed by the [Conv1d] of the text, then its dropout, then its
    additive attention over the word positions.  With
    [use_cls_embed = True] the representation is the word embedding at
    sequence position 0, and no CNN and no attention is called; the word
    embedding is the output of the language model, passed through
    [reduce_dim] and [word_embed_dropout] when [apply_reduce_dim]. *)
Theorem text_representation_pathway (a : Args.t) (self : NewsEncoder) :
  __init__ a = OK self ->
  (forall title_encoding title_attn_mask w repr w' tr,
      run B (title_encoder self title_encoding title_attn_mask) w
      = (OK repr, w', tr) ->
      if Args.use_cls_embed a
      then cls_pathway B self (Some title_encoding) (Some title_attn_mask)
                       w repr w' tr
      else cnn_pathway B self "title_cnn" "title_dropout" "title_additive_attn"
                       (Some title_encoding) (Some title_attn_mask)
                       w repr w' tr)
  /\ (Args.use_sapo a = true ->
      forall sapo_encoding sapo_attn_mask w repr w' tr,
        run B (sapo_encoder self sapo_encoding sapo_attn_mask) w
        = (OK repr, w', tr) ->
        if Args.use_cls_embed a
        then cls_pathway B self sapo_encoding sapo_attn_mask w repr w' tr
        else cnn_pathway B self "sapo_cnn" "sapo_dropout" "sapo_additive_attn"
                         sapo_encoding sapo_attn_mask w repr w' tr).
Proof.
  intros Hinit.
  destruct (init_consistent a self Hinit)
    as (config & word_dim & Hrob & Hred & Hcnn & _).
  destruct (init_flags a self Hinit) as (_ & <- & <- & _).
  split.
  - intros te tm w repr w' tr Hrun. rewrite title_encoder_eq in Hrun.
    eapply text_encoder_inv; eauto.
    destruct (use_cls_embed self); [exact Hcnn | apply Hcnn].
  - intros Hsapo se sm w repr w' tr Hrun. rewrite sapo_encoder_eq in Hrun.
    eapply text_encoder_inv; eauto.
    destruct (use_cls_embed self); [exact Hcnn | apply Hcnn, Hsapo].
Qed.
End PathwayClaims.

(** ** The [[CLS]] pathway after a reduction *)

Section ReducedCls.
Context {T : Torch} {TL : TorchLaws T} {C : Constructors T}
        (B : Backend T) {BL : BackendLaws B}.

Lemma init_reduced_cls_embed_dim (a : Args.t) (self : NewsEncoder) :
  __init__ a = OK self ->
  Args.apply_reduce_dim a = true ->
  Args.use_cls_embed a = true ->
  Args.word_embed_dim a = Some (_embed_dim self).
Proof.
  intros H Hred Hcls. apply init_described, described_inv in H.
  destruct H as (d0 & Hr & Hc & _).
  apply described_reduce_dim_inv in Hr. apply described_cnn_inv in Hc.
  rewrite Hred in Hr. rewrite Hcls in Hc.
  destruct Hr as (Hw & _). destruct Hc as (-> & _). exact Hw.
Qed.

(** On every library that keeps the shape contracts, an encoder built
    with [apply_reduce_dim], [use_cls_embed] and a [word_embed_dim] other
    than the hidden size of the language model gives a title
    representation that is not the output of the language model at
    position 0: the two differ in shape. *)
Lemma reduced_cls_is_not_lm_output
      (a : Args.t) (self : NewsEncoder) (batch_size title_length : Z)
      (title_encoding title_attn_mask : Tensor)
      (w w' : World B) (repr : Tensor) (tr : list CallEvent) :
  __init__ a = OK self ->
  well_sized_layers self ->
  Args.apply_reduce_dim a = true ->
  Args.use_cls_embed a = true ->
  Args.word_embed_dim a <> Some (hidden_size (Args.config a)) ->
  0 < batch_size ->
  valid_text B self batch_size title_length
             (Some title_encoding) (Some title_attn_mask) ->
  run B (title_encoder self title_encoding title_attn_mask) w
  = (OK repr, w', tr) ->
  ~ lm_cls_embedding B self (Some title_encoding) (Some title_attn_mask) w repr.
Proof.
  intros Hinit Hsized Hred Hcls Hdim Hb Hvalid Hrun (lm & w0 & Hlm & Hsel).
  pose proof (init_reduced_cls_embed_dim a self Hinit Hred Hcls) as Hw.
  destruct (init_flags a self Hinit) as (_ & Hc & _ & _ & Hrob).
  destruct (init_consistent a self Hinit)
    as (config & word_dim & Hrob' & Hr & Hcnn & _).
  destruct (usable_layers_child self (init_usable_layers a self Hinit Hsized))
    as (Urob & Ured & Udrop & Utc & Utd & Uta & _).
  assert (Hshape : shape repr = [batch_size; _embed_dim self]).
  { destruct (text_encoder_returns
                B self config word_dim
                "title_cnn" "title_dropout" "title_additive_attn"
                (title_cnn self) (title_dropout self) (title_additive_attn self)
                (Some title_encoding) (Some title_attn_mask)
                batch_size title_length w Hrob' Urob Ured Udrop Utc Utd Uta Hr)
      as (t & w1 & tr1 & Ht & Hs).
    - destruct (use_cls_embed self); [exact Hcnn | apply Hcnn].
    - exact Hb.
    - exact Hvalid.
    - rewrite <- title_encoder_eq, Hrun in Ht. injection Ht as <- _ _. exact Hs. }
  destruct Hvalid as (Hlen & Henc & Hmask & Hvocab & Hacc).
  cbn in Henc, Hmask, Hvocab, Hacc.
  rewrite Hrob in Hlm, Hvocab, Urob.
  destruct (roberta_shape "roberta"%string (Args.config a)
                          title_encoding title_attn_mask
                          batch_size title_length w Urob Hb Hlen Henc Hmask
                          Hvocab Hacc)
    as (t & w1 & Ht & Hts).
  rewrite Hlm in Ht. injection Ht as <- _.
  destruct (select_first_shape lm _ _ _ Hts Hlen) as (t' & Hsel' & Ht').
  rewrite Hsel in Hsel'. injection Hsel' as <-.
  rewrite Hshape in Ht'. injection Ht' as He.
  apply Hdim. rewrite Hw, He. reflexivity.
Qed.
End ReducedCls.

(** ** The properties on a batch of four articles *)

Section Examples.
Import Shapes.
Local Existing Instance constructors.

(** The layers of a concrete encoder have positive sizes. *)
Ltac positive_sizes :=
  let name := fresh "name" in
  let m := fresh "m" in
  let Hin := fresh "Hin" in
  intros name m Hin; cbn in Hin;
  repeat (destruct Hin as [Hin | Hin];
          [injection Hin as <- <-; cbn; repeat split;
           try (exists 18, 100; repeat split)|]);
  destruct Hin.

Lemma forward_output_shape_witness :
  exists self,
    __init__ (args true false true true) = OK self
    /\ well_sized_layers self
    /\ valid_batch backend self 4 title_encoding title_attn_mask
                   (Some sapo_encoding) (Some sapo_attn_mask)
                   (Some category_encoding)
    /\ exists out w' tr,
        run backend (forward self title_encoding title_attn_mask
                             (Some sapo_encoding) (Some sapo_attn_mask)
                             (Some category_encoding)) 0%nat
        = (OK out, w', tr)
        /\ shape out = [4; embed_dim self].
Proof.
  eexists. split; [reflexivity|].
  match goal with
  | |- ?S /\ ?V /\ _ =>
      assert (Hs : S) by positive_sizes;
      assert (Hv : V);
      [ unfold valid_batch, valid_text; cbn;
        split; [reflexivity|];
        split; [exists 32; repeat split|];
        split; [intros _; exists 64; repeat split | repeat split]
      | split; [exact Hs|]; split; [exact Hv|] ]
  end.
  exact (@forward_output_shape torch torch_laws constructors backend
                               backend_laws
                               (args true false true true) _ 4 _ _ _ _ _
                               0%nat eq_refl Hs Hv).
Defined.

(** With [window_size = 0] the constructor returns an encoder, and
    [forward] raises on a valid batch, in every state: a convolution of
    kernel size 0 can be built and cannot be run. *)
Lemma forward_raises_with_window_size_0 :
  exists self,
    __init__ (custom_args true false true true 0 (1, 5%positive) (Some 0))
    = OK self
    /\ valid_batch backend self 4 title_encoding title_attn_mask
                   (Some sapo_encoding) (Some sapo_attn_mask)
                   (Some category_encoding)
    /\ forall w,
        fst (fst (run backend
                      (forward self title_encoding title_attn_mask
                               (Some sapo_encoding) (Some sapo_attn_mask)
                               (Some category_encoding)) w))
        = Raised RuntimeError.
Proof.
  eexists. split; [reflexivity|]. split.
  - unfold valid_batch, valid_text; cbn.
    split; [reflexivity|].
    split; [exists 32; repeat split|].
    split; [intros _; exists 64; repeat split | repeat split].
  - intros w. reflexivity.
Qed.

Lemma forward_without_sapo_and_category_witness :
  exists self,
    __init__ (args true false false false) = OK self
    /\ exists out w' tr,
        run backend (forward self title_encoding title_attn_mask
                             None None None) 0%nat
        = (OK out, w', tr).
Proof.
  eexists. split; [reflexivity|].
  apply (@forward_without_sapo_and_category
           torch torch_laws constructors backend backend_laws
           (args true false false false) _ 4 32).
  - reflexivity.
  - reflexivity.
  - reflexivity.
  - positive_sizes.
  - reflexivity.
  - unfold valid_text. cbn. repeat split.
Defined.

(** An encoder built without sapo and category and with
    [window_size = 0] raises on a valid title with the optional inputs
    left as [None]. *)
Lemma forward_without_optional_inputs_raises :
  exists self,
    __init__ (custom_args false false false false 0 (1, 5%positive) (Some 0))
    = OK self
    /\ use_sapo self = false /\ use_category self = false
    /\ valid_text backend self 4 32
                  (Some title_encoding) (Some title_attn_mask)
    /\ forall w,
        fst (fst (run backend
                      (forward self title_encoding title_attn_mask
                               None None None) w))
        = Raised RuntimeError.
Proof.
  eexists. split; [reflexivity|]. split; [reflexivity|].
  split; [reflexivity|]. split.
  - unfold valid_text. cbn. repeat split.
  - intros w. reflexivity.
Qed.



Lemma pretrained_category_embed_dim_witness :
  Args.use_category (pretrained_args true false true) = true
  /\ Args.category_embed (pretrained_args true false true) = Some category_embed
  /\ exists self,
      __init__ (pretrained_args true false true) = OK self
      /\ category_dense_layer self
         = Some (Sequential [Linear 100 128; ReLU]).
Proof.
  split; [reflexivity|]. split; [reflexivity|].
  destruct (@pretrained_category_embed_dim
              torch constructors (pretrained_args true false true)
              category_embed
              eq_refl eq_refl) as (_ & Hdense & _).
  eexists. split; [reflexivity|].
  destruct (Hdense _ eq_refl) as (dim & Hdim & _ & Hd).
  injection Hdim as <-. exact Hd.
Defined.

Lemma news_info_components_witness :
  exists self title_repr news_info w' tr,
    __init__ (args false true true false) = OK self
    /\ run backend (collect_news_info self title_encoding title_attn_mask
                                      (Some sapo_encoding) (Some sapo_attn_mask)
                                      None) 0%nat
       = (OK (title_repr, news_info), w', tr)
    /\ List.length news_info = 2%nat
    /\ exists w1 tr1 sapo_reprs w2 tr2 tr3,
        run backend (title_encoder self title_encoding title_attn_mask) 0%nat
        = (OK title_repr, w1, tr1)
        /\ optional_component backend true
                              (sapo_encoder self (Some sapo_encoding)
                                            (Some sapo_attn_mask))
                              w1 sapo_reprs w2 tr2
        /\ news_info = title_repr :: sapo_reprs ++ []
        /\ tr = tr1 ++ tr2 ++ tr3.
Proof.
  do 5 eexists. split; [reflexivity|]. split; [vm_compute; reflexivity|].
  split; [reflexivity|].
  destruct (@news_info_components
              torch constructors backend (args false true true false) _
              title_encoding title_attn_mask
              (Some sapo_encoding) (Some sapo_attn_mask) None
              0%nat _ _ _ _ eq_refl eq_refl)
    as (w1 & tr1 & sapo_reprs & w2 & tr2 & category_reprs & tr3
        & Ht & Hs & Hc & Hn & Htr & _).
  destruct Hc as (-> & _ & _).
  exists w1, tr1, sapo_reprs, w2, tr2, tr3. auto.
Defined.

Lemma texts_go_through_roberta_first_witness :
  exists self,
    __init__ (args true false true false) = OK self
    /\ use_sapo self = true
    /\ map ev_attr
           (trace_of backend
              (run backend (forward self title_encoding title_attn_mask
                                    (Some sapo_encoding) (Some sapo_attn_mask)
                                    None) 0%nat))
       = ["roberta"; "reduce_dim"; "word_embed_dropout";
          "title_cnn"; "title_dropout"; "title_additive_attn";
          "roberta"; "reduce_dim"; "word_embed_dropout";
          "sapo_cnn"; "sapo_dropout"; "sapo_additive_attn";
          "attn_pooling"]%string
    /\ exists r rest,
        trace_of backend
          (run backend (forward self title_encoding title_attn_mask
                                (Some sapo_encoding) (Some sapo_attn_mask)
                                None) 0%nat)
        = {| ev_attr := "roberta"; ev_module := roberta self;
             ev_args := [Some title_encoding; Some title_attn_mask];
             ev_result := r |} :: rest.
Proof.
  eexists. split; [reflexivity|]. split; [reflexivity|].
  split; [vm_compute; reflexivity|].
  apply (@texts_go_through_roberta_first torch backend).
Defined.

Lemma inactive_inputs_do_not_interfere_witness :
  exists self,
    __init__ (args false true false false) = OK self
    /\ use_sapo self = false
    /\ use_category self = false
    /\ run backend (forward self title_encoding title_attn_mask
                            (Some sapo_encoding) (Some sapo_attn_mask)
                            (Some category_encoding)) 0%nat
       = run backend (forward self title_encoding title_attn_mask
                              None None None) 0%nat.
Proof.
  eexists. split; [reflexivity|]. split; [reflexivity|]. split; [reflexivity|].
  match goal with
  | |- run _ (forward ?self _ _ _ _ _) _ = _ =>
      destruct (@inactive_inputs_do_not_interfere
                  torch backend self title_encoding title_attn_mask 0%nat)
        as (Hsapo & Hcat)
  end.
  rewrite (Hsapo eq_refl (Some category_encoding)
                 (Some sapo_encoding) (Some sapo_attn_mask) None None).
  apply (Hcat eq_refl).
Defined.

Lemma forward_attentive_pooling_witness :
  exists self,
    __init__ (args false false true true) = OK self
    /\ attn_pooling self = Some (AdditiveAttention 200 128)
    /\ pooled_by_attn_pooling backend self title_encoding title_attn_mask
                              (Some sapo_encoding) (Some sapo_attn_mask)
                              (Some category_encoding) 0%nat.
Proof.
  eexists. split; [reflexivity|].
  match goal with
  | |- attn_pooling ?self = _ /\ _ =>
      destruct (@forward_attentive_pooling
                  torch constructors backend (args false false true true) self
                  title_encoding title_attn_mask
                  (Some sapo_encoding) (Some sapo_attn_mask)
                  (Some category_encoding) 0%nat eq_refl)
        as (Hpool & Hrun)
  end.
  split; [exact Hpool|].
  intros out w' tr H.
  destruct (Hrun out w' tr H)
    as (title_repr & news_info & w1 & tr1 & stacked & shape0 & shape1
        & _ & _ & _ & _ & _ & ->).
  eauto.
Defined.

(** With neither sapo nor category the run has four calls, the last of
    them to [title_additive_attn]: the output is not pooled by
    [attn_pooling]. *)
Lemma forward_without_attn_pooling :
  exists self,
    __init__ (args false false false false) = OK self
    /\ attn_pooling self = None
    /\ ~ pooled_by_attn_pooling backend self title_encoding title_attn_mask
                                None None None 0%nat.
Proof.
  eexists. split; [reflexivity|]. split; [reflexivity|].
  intros H.
  edestruct H as (tr0 & m & args & Htr); [vm_compute; reflexivity|].
  apply (f_equal (@rev _)) in Htr. rewrite rev_unit in Htr. cbn in Htr.
  discriminate Htr.
Qed.

Lemma text_representation_pathway_witness :
  exists self repr w' tr,
    __init__ (args true true false false) = OK self
    /\ run backend (title_encoder self title_encoding title_attn_mask) 0%nat
       = (OK repr, w', tr)
    /\ cls_pathway backend self (Some title_encoding) (Some title_attn_mask)
                   0%nat repr w' tr.
Proof.
  do 4 eexists. split; [reflexivity|]. split; [vm_compute; reflexivity|].
  destruct (@text_representation_pathway
              torch constructors backend (args true true false false) _
              eq_refl)
    as (Htitle & _).
  apply (Htitle title_encoding title_attn_mask 0%nat). reflexivity.
Defined.

(** With [apply_reduce_dim] and [use_cls_embed] the title representation
    has 256 columns: it is not position 0 of the output of the language
    model, which has 768. *)
Lemma cls_embedding_is_not_lm_output :
  exists self repr w' tr,
    __init__ (args true true false false) = OK self
    /\ use_cls_embed self = true
    /\ run backend (title_encoder self title_encoding title_attn_mask) 0%nat
       = (OK repr, w', tr)
    /\ ~ lm_cls_embedding backend self
                          (Some title_encoding) (Some title_attn_mask)
                          0%nat repr.
Proof.
  do 4 eexists. split; [reflexivity|]. split; [reflexivity|].
  split; [vm_compute; reflexivity|].
  intros (lm & w0 & Hlm & Hsel). cbn in Hlm.
  injection Hlm as <- <-. discriminate Hsel.
Qed.
End Examples.

(** ** More on the constructor *)
(** ** More on the constructor *)

Section InitMore.
Context {T : Torch} {C : Constructors T}.

Ltac unfold_blocks :=
  unfold described, __init__, init_reduce_dim, init_cnn, init_category,
    assert_cnn_args, assert_not_None, getitem, init_attn_pooling,
    text_layers, no_layers, raise_if, new, rbind.

(** X1.  The [embed_dim] of a built encoder is read off the arguments:
    [num_cnn_filters] on the CNN pathway; with [use_cls_embed],
    [word_embed_dim] under [apply_reduce_dim] and the hidden size of the
    language model otherwise. *)
Theorem init_embed_dim (a : Args.t) (self : NewsEncoder) :
  __init__ a = OK self ->
  expected_embed_dim a = Some (embed_dim self).
Proof.
  unfold expected_embed_dim, embed_dim. intros H.
  apply init_described, described_inv in H.
  destruct H as (d0 & Hr & Hc & _).
  apply described_reduce_dim_inv in Hr. apply described_cnn_inv in Hc.
  destruct (Args.use_cls_embed a).
  - destruct Hc as (-> & _).
    destruct (Args.apply_reduce_dim a).
    + apply Hr.
    + destruct Hr as (_ & _ & ->). reflexivity.
  - destruct Hc as (k & _ & Hf & _). exact Hf.
Qed.

(** The described encoder exists exactly when no assertion is violated
    and the category arguments suffice. *)
Lemma described_returns_iff (a : Args.t) :
  (exists self, described a = OK self)
  <-> ~ violates_reduce_dim a
      /\ ~ violates_cnn a
      /\ (Args.use_category a = true -> category_args_usable a).
Proof.
  unfold violates_reduce_dim, violates_cnn, category_args_usable.
  destruct a as [cfg ard cls sapo cat pad q p ced ce nc ncf ws wed].
  unfold_blocks.
  cbn [permissive super_init_error ctor_error embedding_without_dim
       init_weights_error].
  cbn -[nth_error]. split.
  - intros (self & H).
    destruct ard, wed as [wed|], cls, sapo, ws as [ws|], ncf as [ncf|], cat,
      ce as [ce|], nc as [nc|], ced as [ced|]; cbn -[nth_error] in H;
      try discriminate H;
      try (destruct (nth_error (shape ce) 1) as [d|] eqn:Hd;
           cbn -[nth_error] in H; [|discriminate H]);
      (split; [intros (? & ?); discriminate|]);
      (split; [intros (? & [? | ?]); discriminate|]);
      intros Hc; try discriminate Hc;
      try (exists d; reflexivity);
      split; discriminate.
  - intros (Hr & Hc & Hk).
    destruct ard, wed as [wed|]; try (exfalso; apply Hr; split; reflexivity);
      destruct cls, ws as [ws|], ncf as [ncf|];
      try (exfalso; apply Hc; split; [reflexivity | solve [auto]]);
      destruct sapo, cat; cbn -[nth_error];
      try (eexists; reflexivity);
      specialize (Hk eq_refl);
      (destruct ce as [ce|];
       [ destruct Hk as (d & ->); cbn; eexists; reflexivity
       | destruct Hk as (Hn & Hd);
         destruct nc as [nc|], ced as [ced|]; try congruence;
         cbn; eexists; reflexivity ]).
Qed.

(** X2.  [__init__] builds an encoder exactly when none of the three
    assertions is violated, with [use_category] the category arguments
    suffice (a pretrained table with a second dimension, or
    [num_category] together with [category_embed_dim]), and the library
    accepts every call that building the described encoder takes:
    [super().__init__], the constructor of each layer, [init_weights]. *)
Theorem init_returns_iff (a : Args.t) :
  (exists self, __init__ a = OK self)
  <-> ~ violates_reduce_dim a
      /\ ~ violates_cnn a
      /\ (Args.use_category a = true -> category_args_usable a)
      /\ library_accepts a.
Proof.
  split.
  - intros (self & H). apply init_iff in H. destruct H as (Hd & Hacc).
    assert (Hex : exists self, described a = OK self) by eauto.
    apply described_returns_iff in Hex. destruct Hex as (Hr & Hc & Hk).
    repeat (split; [assumption|]).
    intros self' Hd'. rewrite Hd in Hd'. injection Hd' as <-. exact Hacc.
  - intros (Hr & Hc & Hk & Hlib).
    assert (Hex : exists self, described a = OK self).
    { apply described_returns_iff. auto. }
    destruct Hex as (self & Hd). exists self.
    apply init_iff. split; [exact Hd | exact (Hlib self Hd)].
Qed.

(** X3.  [__init__] reads an optional argument only under the flag that
    needs it: two argument records that agree on the configuration, the
    flags and the arguments of the active pathways give the same result,
    encoder or exception.  With [use_category = False] the four category
    arguments play no part; with [use_cls_embed = True] neither do
    [window_size] and [num_cnn_filters]; without [apply_reduce_dim],
    [word_embed_dim] does not. *)
Theorem init_reads_active_arguments_only (a a' : Args.t) :
  args_agree a a' -> __init__ a = __init__ a'.
Proof.
  unfold args_agree.
  destruct a as [cfg ard cls sapo cat pad q p ced ce nc ncf ws wed].
  destruct a' as [cfg' ard' cls' sapo' cat' pad' q' p' ced' ce' nc' ncf' ws' wed'].
  cbn. intros (<- & <- & <- & <- & <- & Hw & Hc & Hp & Hq & Hk).
  unfold __init__, init_reduce_dim, init_cnn, init_category, assert_cnn_args,
    assert_not_None, getitem, init_attn_pooling, text_layers, no_layers.
  cbn -[nth_error].
  destruct ard.
  - rewrite <- (Hw eq_refl), <- (Hp (or_introl eq_refl)).
    destruct wed as [wed|]; [|reflexivity]. cbn -[nth_error].
    destruct cls.
    + destruct cat.
      * destruct (Hk eq_refl) as (<- & <- & Hn).
        rewrite <- (Hq (or_intror (or_intror eq_refl))).
        destruct ce as [ce|]; [reflexivity|].
        destruct (Hn eq_refl) as (<- & <-). reflexivity.
      * destruct sapo; [|reflexivity].
        rewrite <- (Hq (or_intror (or_introl eq_refl))). reflexivity.
    + destruct (Hc eq_refl) as (<- & <-).
      rewrite <- (Hq (or_introl eq_refl)).
      destruct cat; [|reflexivity].
      destruct (Hk eq_refl) as (<- & <- & Hn).
      destruct ce as [ce|]; [reflexivity|].
      destruct (Hn eq_refl) as (<- & <-). reflexivity.
  - destruct cls.
    + destruct cat.
      * destruct (Hk eq_refl) as (<- & <- & Hn).
        rewrite <- (Hq (or_intror (or_intror eq_refl))).
        destruct ce as [ce|]; [reflexivity|].
        destruct (Hn eq_refl) as (<- & <-). reflexivity.
      * destruct sapo; [|reflexivity].
        rewrite <- (Hq (or_intror (or_introl eq_refl))). reflexivity.
    + destruct (Hc eq_refl) as (<- & <-).
      rewrite <- (Hq (or_introl eq_refl)), <- (Hp (or_intror eq_refl)).
      destruct cat; [|reflexivity].
      destruct (Hk eq_refl) as (<- & <- & Hn).
      destruct ce as [ce|]; [reflexivity|].
      destruct (Hn eq_refl) as (<- & <-). reflexivity.
Qed.
End InitMore.

(** ** The sequence of calls *)

(** ** The sequence of calls *)

Section CallSequenceFacts.
Context {T : Torch} {C : Constructors T} (B : Backend T).

Lemma child_in (name : string) (layer : option nnModule) (m : nnModule) :
  layer = Some m -> In (name, m) (child name layer).
Proof. intros ->. left. reflexivity. Qed.

Ltac find_child :=
  first [ apply child_in; assumption
        | apply in_or_app;
          first [ left; first [ apply child_in; assumption | left; reflexivity ]
                | right; find_child ] ].

Lemma calls_within_Ret (self : NewsEncoder) {A : Type} (a : A) :
  calls_within B self (Ret a) [].
Proof.
  intros w. cbn. split; [exists []; reflexivity|]. split; [constructor|].
  intros ? ? ? [= _ _ <-]. reflexivity.
Qed.

Lemma calls_within_lift (self : NewsEncoder) {A : Type} (r : result A) :
  calls_within B self (lift r) [].
Proof.
  destruct r as [a|e]; [apply calls_within_Ret|].
  intros w. cbn. split; [exists []; reflexivity|]. split; [constructor|].
  discriminate.
Qed.

Lemma calls_within_Call (self : NewsEncoder) attr m args :
  In (attr, m) (named_children self) ->
  calls_within B self (Call attr m args Ret) [attr].
Proof.
  intros Hin w. cbn.
  destruct (handle B attr m args w) as [[t|e] w1]; cbn.
  - split; [exists []; reflexivity|]. split; [constructor; [exact Hin | constructor]|].
    intros ? ? ? [= _ _ <-]. reflexivity.
  - split; [exists []; reflexivity|]. split; [constructor; [exact Hin | constructor]|].
    discriminate.
Qed.

Lemma calls_within_call (self : NewsEncoder) attr layer args :
  (forall m, layer = Some m -> In (attr, m) (named_children self)) ->
  calls_within B self (call attr layer args) [attr].
Proof.
  intros Hin. destruct layer as [m|].
  - apply calls_within_Call. apply Hin. reflexivity.
  - intros w. cbn. split; [exists [attr]; reflexivity|].
    split; [constructor | discriminate].
Qed.

Lemma calls_within_bind (self : NewsEncoder) {A R : Type}
      (p : Prog A) (f : A -> Prog R) (n1 n2 : list string) :
  calls_within B self p n1 ->
  (forall a, calls_within B self (f a) n2) ->
  calls_within B self (bind p f) (n1 ++ n2).
Proof.
  intros Hp Hf w. rewrite run_bind.
  destruct (Hp w) as ((rest1 & Hpre) & Hreg & Hok).
  destruct (run B p w) as [[[a|e] w1] tr1] eqn:Hrun.
  - destruct (Hf a w1) as ((rest2 & Hpre2) & Hreg2 & Hok2).
    specialize (Hok a w1 tr1 eq_refl).
    destruct (run B (f a) w1) as [[r w2] tr2] eqn:Hrun2. cbn in *.
    split; [|split].
    + exists rest2. rewrite map_app, Hok, Hpre2, app_assoc. reflexivity.
    + apply Forall_app. auto.
    + intros c w' tr [= Hr Hw <-]. subst r.
      rewrite map_app, Hok, (Hok2 c w2 tr2 eq_refl). reflexivity.
  - cbn in *. split; [|split].
    + exists (rest1 ++ n2). rewrite Hpre, app_assoc. reflexivity.
    + exact Hreg.
    + discriminate.
Qed.

Lemma text_encoder_calls (self : NewsEncoder)
      cnn_attr dropout_attr attn_attr cnn dropout attn encoding attn_mask :
  (forall m, cnn = Some m -> In (cnn_attr, m) (named_children self)) ->
  (forall m, dropout = Some m -> In (dropout_attr, m) (named_children self)) ->
  (forall m, attn = Some m -> In (attn_attr, m) (named_children self)) ->
  calls_within B self
               (text_encoder self cnn_attr dropout_attr attn_attr
                             cnn dropout attn encoding attn_mask)
               (text_calls self cnn_attr dropout_attr attn_attr).
Proof.
  intros Hcnn Hdrop Hattn. unfold text_encoder, text_calls.
  apply calls_within_bind.
  { apply calls_within_Call. left. reflexivity. }
  intros lm. apply calls_within_bind.
  { destruct (apply_reduce_dim self); [|apply calls_within_Ret].
    apply (calls_within_bind self _ _ ["reduce_dim"%string]
                             ["word_embed_dropout"%string]).
    - apply calls_within_call. intros m Hm. unfold named_children. find_child.
    - intros x. apply calls_within_call. intros m Hm.
      unfold named_children. find_child. }
  intros word_embed.
  destruct (use_cls_embed self); [apply calls_within_lift|].
  apply (calls_within_bind self _ _ [] [cnn_attr; dropout_attr; attn_attr]);
    [apply calls_within_lift|].
  intros x.
  apply (calls_within_bind self _ _ [cnn_attr] [dropout_attr; attn_attr]);
    [apply calls_within_call, Hcnn|].
  intros c.
  apply (calls_within_bind self _ _ [] [dropout_attr; attn_attr]);
    [apply calls_within_lift|].
  intros y.
  apply (calls_within_bind self _ _ [dropout_attr] [attn_attr]);
    [apply calls_within_call, Hdrop|].
  intros z. apply calls_within_call, Hattn.
Qed.

Lemma forward_calls_within (self : NewsEncoder)
      (title_encoding title_attn_mask : Tensor)
      (sapo_encoding sapo_attn_mask category_encoding : option Tensor) :
  calls_within B self
               (forward self title_encoding title_attn_mask
                        sapo_encoding sapo_attn_mask category_encoding)
               (forward_calls self).
Proof.
  unfold forward, forward_calls.
  rewrite app_assoc, app_assoc.
  apply calls_within_bind.
  - unfold collect_news_info.
    rewrite <- app_assoc.
    apply calls_within_bind.
    { rewrite title_encoder_eq. apply text_encoder_calls;
        intros m Hm; unfold named_children; find_child. }
    intros title_repr. cbn zeta.
    apply calls_within_bind.
    { destruct (use_sapo self); [|apply calls_within_Ret].
      rewrite <- (app_nil_r (text_calls _ _ _ _)).
      apply calls_within_bind; [|intros; apply calls_within_Ret].
      rewrite sapo_encoder_eq. apply text_encoder_calls;
        intros m Hm; unfold named_children; find_child. }
    intros news_info.
    rewrite <- (app_nil_r (if use_category self then _ else _)).
    apply calls_within_bind; [|intros; apply calls_within_Ret].
    destruct (use_category self); [|apply calls_within_Ret].
    apply (calls_within_bind self _ _ ["category_embedding"%string; "category_dense_layer"%string] []);
      [|intros; apply calls_within_Ret].
    unfold category_encoder.
    apply (calls_within_bind self _ _ ["category_embedding"%string]
                             ["category_dense_layer"%string]).
    + apply calls_within_call. intros m Hm. unfold named_children. find_child.
    + intros x. apply calls_within_call. intros m Hm.
      unfold named_children. find_child.
  - intros [title_repr news_info]. unfold attentive_pooling.
    destruct (use_category self || use_sapo self); [|apply calls_within_Ret].
    apply (calls_within_bind self _ _ [] ["attn_pooling"%string]);
      [apply calls_within_lift|].
    intros stacked.
    apply (calls_within_bind self _ _ [] ["attn_pooling"%string]);
      [apply calls_within_lift|].
    intros shape0.
    apply (calls_within_bind self _ _ [] ["attn_pooling"%string]);
      [apply calls_within_lift|].
    intros shape1.
    apply calls_within_call. intros m Hm. unfold named_children. find_child.
Qed.

(** X4.  The layers [forward] calls, and their order, follow from the
    flags alone ([forward_calls]): in every run, whatever the inputs and
    whatever the library does, the attributes called are a prefix of that
    sequence, the whole of it when [forward] returns, and each call goes
    to the layer that [self] holds under the attribute. *)
Theorem forward_call_sequence
        (self : NewsEncoder) (title_encoding title_attn_mask : Tensor)
        (sapo_encoding sapo_attn_mask category_encoding : option Tensor)
        (w : World B) :
  let outcome :=
    run B (forward self title_encoding title_attn_mask
                   sapo_encoding sapo_attn_mask category_encoding) w in
  is_prefix (map ev_attr (trace_of B outcome)) (forward_calls self)
  /\ Forall (registered self) (trace_of B outcome)
  /\ (forall out w' tr,
         outcome = (OK out, w', tr) -> map ev_attr tr = forward_calls self).
Proof.
  exact (forward_calls_within self title_encoding title_attn_mask
                              sapo_encoding sapo_attn_mask category_encoding w).
Qed.

Lemma in_child_inv (name attr : string) (layer : option nnModule) (m : nnModule) :
  In (name, m) (child attr layer) -> name = attr /\ layer = Some m.
Proof.
  destruct layer as [m'|]; cbn; [|contradiction].
  intros [[= <- <-] | []]. auto.
Qed.

Lemma in_named_children_inv (self : NewsEncoder) (name : string) (m : nnModule) :
  In (name, m) (named_children self) ->
  (name = "roberta"%string /\ Some (roberta self) = Some m)
  \/ (name = "reduce_dim"%string /\ reduce_dim self = Some m)
  \/ (name = "word_embed_dropout"%string /\ word_embed_dropout self = Some m)
  \/ (name = "title_cnn"%string /\ title_cnn self = Some m)
  \/ (name = "title_dropout"%string /\ title_dropout self = Some m)
  \/ (name = "title_additive_attn"%string /\ title_additive_attn self = Some m)
  \/ (name = "sapo_cnn"%string /\ sapo_cnn self = Some m)
  \/ (name = "sapo_dropout"%string /\ sapo_dropout self = Some m)
  \/ (name = "sapo_additive_attn"%string /\ sapo_additive_attn self = Some m)
  \/ (name = "category_embedding"%string /\ category_embedding self = Some m)
  \/ (name = "category_dense_layer"%string
      /\ category_dense_layer self = Some m)
  \/ (name = "attn_pooling"%string /\ attn_pooling self = Some m).
Proof.
  unfold named_children. intros H.
  apply in_app_or in H. destruct H as [[[= <- <-] | []] | H]; [tauto|].
  repeat (apply in_app_or in H;
          destruct H as [H | H]; [apply in_child_inv in H; tauto|]).
  apply in_child_inv in H. tauto.
Qed.

(** An attribute holds one layer. *)
Lemma named_children_functional (self : NewsEncoder) (name : string)
      (m m' : nnModule) :
  In (name, m) (named_children self) ->
  In (name, m') (named_children self) ->
  m = m'.
Proof.
  intros H H'.
  apply in_named_children_inv in H. apply in_named_children_inv in H'.
  repeat match goal with
         | H : _ \/ _ |- _ => destruct H as [H | H]
         end;
    destruct H as (-> & H); destruct H' as (E & H');
    try discriminate E; congruence.
Qed.

(** Every layer the constructor registers is one [forward] calls. *)
Lemma init_children_called (a : Args.t) (self : NewsEncoder) (name : string) :
  __init__ a = OK self ->
  In name (map fst (named_children self)) ->
  In name (forward_calls self).
Proof.
  intros H. apply init_described, described_inv in H.
  destruct H as (d0 & Hr & Hc & Hk & Hp & _ & Ea & Ec & Es & Ek).
  apply described_reduce_dim_inv in Hr. apply described_cnn_inv in Hc.
  apply described_category_inv in Hk.
  unfold named_children, forward_calls, text_calls.
  rewrite Hp, Ea, Ec, Es, Ek.
  unfold attn_pooling_described, text_layers_described, no_layers in *.
  destruct (Args.apply_reduce_dim a);
    [destruct Hr as (_ & -> & ->) | destruct Hr as (-> & -> & _)];
    (destruct (Args.use_cls_embed a);
     [ destruct Hc as (_ & [= -> -> ->] & [= -> -> ->])
     | destruct Hc as (k & _ & _ & [= -> -> ->] & Hs) ]);
    (destruct (Args.use_category a);
     [destruct Hk as (emb & d & -> & _ & ->) | destruct Hk as (-> & ->)]);
    destruct (Args.use_sapo a); try injection Hs as -> -> ->;
    cbn; tauto.
Qed.

(** X5.  An encoder that [__init__] built has no layer that [forward]
    leaves unused and [forward] needs no layer that is missing: in every
    run that returns, the layers of [self] are exactly the layers
    called. *)
Theorem built_layers_are_the_called_layers
        (a : Args.t) (self : NewsEncoder)
        (title_encoding title_attn_mask : Tensor)
        (sapo_encoding sapo_attn_mask category_encoding : option Tensor)
        (w w' : World B) (out : Tensor) (tr : list CallEvent) :
  __init__ a = OK self ->
  run B (forward self title_encoding title_attn_mask
                 sapo_encoding sapo_attn_mask category_encoding) w
  = (OK out, w', tr) ->
  forall name m,
    In (name, m) (named_children self)
    <-> exists ev, In ev tr /\ ev_attr ev = name /\ ev_module ev = m.
Proof.
  intros Hinit Hrun name m.
  destruct (forward_calls_within self title_encoding title_attn_mask
                                 sapo_encoding sapo_attn_mask
                                 category_encoding w)
    as (_ & Hreg & Hnames).
  rewrite Hrun in Hreg. cbn in Hreg. specialize (Hnames out w' tr Hrun).
  rewrite Forall_forall in Hreg.
  split.
  - intros Hin.
    assert (Hcalled : In name (forward_calls self)).
    { apply (init_children_called a self name Hinit).
      apply in_map_iff. exists (name, m). auto. }
    rewrite <- Hnames in Hcalled. apply in_map_iff in Hcalled.
    destruct Hcalled as (ev & Hattr & Hev).
    exists ev. split; [exact Hev|]. split; [exact Hattr|].
    specialize (Hreg ev Hev). unfold registered in Hreg. rewrite Hattr in Hreg.
    exact (named_children_functional self name _ _ Hreg Hin).
  - intros (ev & Hev & <- & <-). exact (Hreg ev Hev).
Qed.
End CallSequenceFacts.

(** ** Missing attributes *)

Section AttributeSafety.
Context {T : Torch} {C : Constructors T} (B : Backend T).
Hypothesis Hinside : no_AttributeError_inside B.

Lemma never_AttributeError_Ret {A : Type} (a : A) :
  never_AttributeError B (Ret a).
Proof. intros w. cbn. discriminate. Qed.

Lemma never_AttributeError_lift {A : Type} (r : result A) :
  r <> Raised AttributeError -> never_AttributeError B (lift r).
Proof.
  intros Hr w. destruct r as [a|e]; cbn; [discriminate|].
  intros [= ->]. apply Hr. reflexivity.
Qed.

Lemma never_AttributeError_Call attr m args :
  never_AttributeError B (Call attr m args Ret).
Proof.
  intros w. cbn.
  destruct Hinside as (_ & _ & _ & Hh). specialize (Hh attr m args w).
  destruct (handle B attr m args w) as [[t|e] w1]; cbn in *;
    [discriminate | exact Hh].
Qed.

Lemma never_AttributeError_call attr layer args :
  layer <> None -> never_AttributeError B (call attr layer args).
Proof.
  destruct layer as [m|]; [|congruence].
  intros _. apply never_AttributeError_Call.
Qed.

Lemma never_AttributeError_bind {A R : Type} (p : Prog A) (f : A -> Prog R) :
  never_AttributeError B p ->
  (forall a, never_AttributeError B (f a)) ->
  never_AttributeError B (bind p f).
Proof.
  intros Hp Hf w. rewrite run_bind. specialize (Hp w).
  destruct (run B p w) as [[[a|e] w1] tr1];
    [|cbn in *; intros [= ->]; apply Hp; reflexivity].
  specialize (Hf a w1).
  destruct (run B (f a) w1) as [[r w2] tr2]. exact Hf.
Qed.

Lemma text_encoder_never_AttributeError (self : NewsEncoder)
      cnn_attr dropout_attr attn_attr cnn dropout attn encoding attn_mask :
  (apply_reduce_dim self = true ->
   reduce_dim self <> None /\ word_embed_dropout self <> None) ->
  (use_cls_embed self = false ->
   cnn <> None /\ dropout <> None /\ attn <> None) ->
  never_AttributeError B
    (text_encoder self cnn_attr dropout_attr attn_attr
                  cnn dropout attn encoding attn_mask).
Proof.
  intros Hred Hcnn. unfold text_encoder.
  destruct Hinside as (Hsel & Htr & _ & _).
  apply never_AttributeError_bind; [apply never_AttributeError_Call|].
  intros lm. apply never_AttributeError_bind.
  { destruct (apply_reduce_dim self); [|apply never_AttributeError_Ret].
    destruct (Hred eq_refl) as (Hl & Hd).
    apply never_AttributeError_bind;
      [|intros x]; apply never_AttributeError_call; assumption. }
  intros word_embed.
  destruct (use_cls_embed self);
    [apply never_AttributeError_lift, Hsel|].
  destruct (Hcnn eq_refl) as (Hc & Hd & Ha).
  apply never_AttributeError_bind; [apply never_AttributeError_lift, Htr|].
  intros x.
  apply never_AttributeError_bind; [apply never_AttributeError_call, Hc|].
  intros c.
  apply never_AttributeError_bind; [apply never_AttributeError_lift, Htr|].
  intros y.
  apply never_AttributeError_bind; [apply never_AttributeError_call, Hd|].
  intros z. apply never_AttributeError_call, Ha.
Qed.

Lemma getitem_not_AttributeError {A : Type} (l : list A) (i : nat) :
  getitem l i <> Raised AttributeError.
Proof. unfold getitem. destruct (nth_error l i); discriminate. Qed.

Lemma consistent_never_AttributeError (self : NewsEncoder)
      (title_encoding title_attn_mask : Tensor)
      (sapo_encoding sapo_attn_mask category_encoding : option Tensor) :
  consistent self ->
  never_AttributeError B
    (forward self title_encoding title_attn_mask
             sapo_encoding sapo_attn_mask category_encoding).
Proof.
  intros (config & word_dim & _ & Hred & Hcnn & Hcat & Hpool).
  assert (Hred' : apply_reduce_dim self = true ->
                  reduce_dim self <> None /\ word_embed_dropout self <> None).
  { intros E. rewrite E in Hred. destruct Hred as (p & -> & ->).
    split; discriminate. }
  unfold forward, collect_news_info.
  apply never_AttributeError_bind.
  - apply never_AttributeError_bind.
    { rewrite title_encoder_eq.
      apply text_encoder_never_AttributeError; [exact Hred'|].
      intros E. rewrite E in Hcnn.
      destruct Hcnn as ((k & p & q & -> & -> & ->) & _).
      repeat split; discriminate. }
    intros title_repr. cbn zeta.
    apply never_AttributeError_bind.
    { destruct (use_sapo self) eqn:Hs; [|apply never_AttributeError_Ret].
      apply never_AttributeError_bind;
        [|intros; apply never_AttributeError_Ret].
      rewrite sapo_encoder_eq.
      apply text_encoder_never_AttributeError; [exact Hred'|].
      intros E. rewrite E in Hcnn.
      destruct Hcnn as (_ & Hsapo).
      destruct (Hsapo eq_refl) as (k & p & q & -> & -> & ->).
      repeat split; discriminate. }
    intros news_info.
    apply never_AttributeError_bind;
      [|intros; apply never_AttributeError_Ret].
    destruct (use_category self) eqn:Hc; [|apply never_AttributeError_Ret].
    destruct (Hcat eq_refl) as (emb & d & He & _ & Hd).
    apply never_AttributeError_bind;
      [|intros; apply never_AttributeError_Ret].
    unfold category_encoder.
    apply never_AttributeError_bind; [|intros x];
      apply never_AttributeError_call; congruence.
  - intros [title_repr news_info]. unfold attentive_pooling.
    destruct (use_category self || use_sapo self) eqn:Hflags;
      [|apply never_AttributeError_Ret].
    rewrite orb_comm in Hflags. destruct (Hpool Hflags) as (q & Hq).
    destruct Hinside as (_ & _ & Hstack & _).
    apply never_AttributeError_bind;
      [apply never_AttributeError_lift, Hstack|].
    intros stacked.
    apply never_AttributeError_bind;
      [apply never_AttributeError_lift, getitem_not_AttributeError|].
    intros shape0.
    apply never_AttributeError_bind;
      [apply never_AttributeError_lift, getitem_not_AttributeError|].
    intros shape1. apply never_AttributeError_call. congruence.
Qed.

(** X6.  [forward] on an encoder that [__init__] built never fails on a
    missing attribute: whatever the inputs, valid or not, a run that
    raises raises what the library raised, not [AttributeError] (the
    library raising none of its own). *)
Theorem forward_never_misses_a_layer
        (a : Args.t) (self : NewsEncoder)
        (title_encoding title_attn_mask : Tensor)
        (sapo_encoding sapo_attn_mask category_encoding : option Tensor)
        (w w' : World B) (tr : list CallEvent) :
  __init__ a = OK self ->
  run B (forward self title_encoding title_attn_mask
                 sapo_encoding sapo_attn_mask category_encoding) w
  <> (Raised AttributeError, w', tr).
Proof.
  intros Hinit Hrun.
  apply (consistent_never_AttributeError
           self title_encoding title_attn_mask
           sapo_encoding sapo_attn_mask category_encoding
           (init_consistent a self Hinit) w).
  rewrite Hrun. reflexivity.
Qed.
End AttributeSafety.

(** ** The pooling step *)
(** ** The pooling step *)

Section PoolingFacts.
Context {T : Torch} {TL : TorchLaws T} {C : Constructors T}
        (B : Backend T) {BL : BackendLaws B}.

Lemma optional_component_length (flag : bool) (p : Prog Tensor)
      (w w' : World B) reprs tr :
  optional_component B flag p w reprs w' tr ->
  Z.of_nat (List.length reprs) = if flag then 1 else 0.
Proof.
  unfold optional_component. destruct flag.
  - intros (repr & _ & ->). reflexivity.
  - intros (-> & _). reflexivity.
Qed.

Lemma collect_news_info_length (self : NewsEncoder)
      (title_encoding title_attn_mask : Tensor)
      (sapo_encoding sapo_attn_mask category_encoding : option Tensor)
      (w w' : World B) title_repr news_info tr :
  run B (collect_news_info self title_encoding title_attn_mask
                           sapo_encoding sapo_attn_mask category_encoding) w
  = (OK (title_repr, news_info), w', tr) ->
  Z.of_nat (List.length news_info) = num_components self.
Proof.
  intros Hrun. unfold collect_news_info in Hrun.
  apply run_bind_inv in Hrun.
  destruct Hrun as (t & w1 & tr1 & tr1' & _ & Hrun & _).
  cbn zeta in Hrun. apply run_bind_inv in Hrun.
  destruct Hrun as (n1 & w2 & tr2 & tr2' & Hsapo & Hrun & _).
  apply run_bind_inv in Hrun.
  destruct Hrun as (n2 & w3 & tr3 & tr3' & Hcat & Hrun & _).
  apply run_Ret_inv in Hrun. destruct Hrun as (Heq & _ & _).
  injection Heq as _ ->.
  apply optional_component_inv in Hsapo. destruct Hsapo as (sr & Hsapo & ->).
  apply optional_component_inv in Hcat. destruct Hcat as (cr & Hcat & ->).
  apply optional_component_length in Hsapo, Hcat.
  unfold num_components. rewrite !length_app, !Nat2Z.inj_add, Hsapo, Hcat.
  reflexivity.
Qed.

(** The components of [news_info], as the flags of [self] have them. *)
Lemma collect_news_info_inv (self : NewsEncoder)
      (title_encoding title_attn_mask : Tensor)
      (sapo_encoding sapo_attn_mask category_encoding : option Tensor)
      (w w' : World B) title_repr news_info tr :
  run B (collect_news_info self title_encoding title_attn_mask
                           sapo_encoding sapo_attn_mask category_encoding) w
  = (OK (title_repr, news_info), w', tr) ->
  exists w1 tr1 sapo_reprs w2 tr2 category_reprs tr3,
    run B (title_encoder self title_encoding title_attn_mask) w
    = (OK title_repr, w1, tr1)
    /\ optional_component B (use_sapo self)
                          (sapo_encoder self sapo_encoding sapo_attn_mask)
                          w1 sapo_reprs w2 tr2
    /\ optional_component B (use_category self)
                          (category_encoder self category_encoding)
                          w2 category_reprs w' tr3
    /\ news_info = title_repr :: sapo_reprs ++ category_reprs
    /\ tr = tr1 ++ tr2 ++ tr3.
Proof.
  intros Hrun. unfold collect_news_info in Hrun.
  apply run_bind_inv in Hrun.
  destruct Hrun as (t & w1 & tr1 & tr1' & Htitle & Hrun & ->).
  cbn zeta in Hrun. apply run_bind_inv in Hrun.
  destruct Hrun as (n1 & w2 & tr2 & tr2' & Hsapo & Hrun & ->).
  apply run_bind_inv in Hrun.
  destruct Hrun as (n2 & w3 & tr3 & tr3' & Hcat & Hrun & ->).
  apply run_Ret_inv in Hrun. destruct Hrun as (Heq & -> & ->).
  injection Heq as <- ->.
  apply optional_component_inv in Hsapo. destruct Hsapo as (sr & Hsapo & ->).
  apply optional_component_inv in Hcat. destruct Hcat as (cr & Hcat & ->).
  exists w1, tr1, sr, w2, tr2, cr, tr3.
  rewrite app_nil_r. auto 10.
Qed.

(** X7.  With [use_sapo] or [use_category], on an encoder whose layers
    have positive sizes and a valid batch that is not empty, the last
    call of a run that returns is [attn_pooling] on the stack, along
    dimension 1, of the representations that the active encoders
    returned (the title's, then the sapo's, then the category's), a
    tensor of shape [(batch_size, n, embed_dim)], and a mask of ones of
    shape [(batch_size, n)], [n] being the number of active components
    (2 or 3): the pooling attends to every component, none is masked
    out. *)
Theorem pooling_attends_to_every_component
        (a : Args.t) (self : NewsEncoder) (batch_size : Z)
        (title_encoding title_attn_mask : Tensor)
        (sapo_encoding sapo_attn_mask category_encoding : option Tensor)
        (w w' : World B) (out : Tensor) (tr : list CallEvent) :
  __init__ a = OK self ->
  well_sized_layers self ->
  valid_batch B self batch_size title_encoding title_attn_mask
              sapo_encoding sapo_attn_mask category_encoding ->
  use_sapo self || use_category self = true ->
  run B (forward self title_encoding title_attn_mask
                 sapo_encoding sapo_attn_mask category_encoding) w
  = (OK out, w', tr) ->
  exists title_repr w1 tr1 sapo_reprs w2 tr2 category_reprs w3 tr3 stacked m,
    run B (title_encoder self title_encoding title_attn_mask) w
    = (OK title_repr, w1, tr1)
    /\ optional_component B (use_sapo self)
                          (sapo_encoder self sapo_encoding sapo_attn_mask)
                          w1 sapo_reprs w2 tr2
    /\ optional_component B (use_category self)
                          (category_encoder self category_encoding)
                          w2 category_reprs w3 tr3
    /\ Forall (fun t => shape t = [batch_size; embed_dim self])
              (title_repr :: sapo_reprs ++ category_reprs)
    /\ Z.of_nat (List.length (title_repr :: sapo_reprs ++ category_reprs))
       = num_components self
    /\ stack_dim1 (title_repr :: sapo_reprs ++ category_reprs) = OK stacked
    /\ shape stacked = [batch_size; num_components self; embed_dim self]
    /\ attn_pooling self = Some m
    /\ handle B "attn_pooling" m
              [Some stacked;
               Some (ones_bool batch_size (num_components self))] w3
       = (OK out, w')
    /\ tr = (tr1 ++ tr2 ++ tr3)
            ++ [called "attn_pooling" m
                       [Some stacked;
                        Some (ones_bool batch_size (num_components self))]
                       out].
Proof.
  intros Hinit Hsized Hvalid Hflags Hrun.
  pose proof (init_consistent a self Hinit) as Hcons.
  pose proof (init_usable_layers a self Hinit Hsized) as Hu.
  unfold forward in Hrun. apply run_bind_inv in Hrun.
  destruct Hrun as ([title_repr news_info] & w1 & tr1 & tr2 & Hcol & Hrun & ->).
  destruct (collect_news_info_returns B self batch_size _ _ _ _ _ w
                                      Hcons Hu Hvalid)
    as ([t n] & w1' & tr1' & Hcol' & _ & _ & Hall).
  rewrite Hcol in Hcol'. injection Hcol' as <- <- _ _.
  pose proof (collect_news_info_length self _ _ _ _ _ _ _ _ _ _ Hcol) as Hlen.
  assert (Hne : news_info <> []).
  { intros ->. pose proof (num_components_pos self). cbn in Hlen. lia. }
  unfold attentive_pooling in Hrun. rewrite orb_comm, Hflags in Hrun.
  apply run_bind_inv in Hrun.
  destruct Hrun as (stacked & w2 & tr3 & tr4 & Hst & Hrun & ->).
  apply run_lift_inv in Hst. destruct Hst as (Hst & -> & ->).
  destruct (stack_dim1_shape news_info _ _ Hne Hall) as (s & Hs & Hshape).
  rewrite Hst in Hs. injection Hs as <-. rewrite Hlen in Hshape.
  rewrite Hshape in Hrun. cbn in Hrun.
  apply run_call_inv in Hrun. destruct Hrun as (m & Hm & Hcall & ->).
  apply collect_news_info_inv in Hcol.
  destruct Hcol as (v1 & t1 & sr & v2 & t2 & cr & t3 & Ht & Hs & Hc & -> & ->).
  exists title_repr, v1, t1, sr, v2, t2, cr, w1, t3, stacked, m.
  auto 12.
Qed.
End PoolingFacts.

(** ** Flags changed after construction *)

Section FlagsChanged.
Context {T : Torch} {C : Constructors T}.

Lemma init_absent_layers (a : Args.t) (self : NewsEncoder) :
  __init__ a = OK self ->
  (Args.use_category a = false -> category_embedding self = None)
  /\ (Args.use_sapo a = false -> sapo_cnn self = None)
  /\ (Args.use_sapo a = false -> Args.use_category a = false ->
      attn_pooling self = None).
Proof.
  intros H. apply init_described, described_inv in H.
  destruct H as (d0 & _ & Hc & Hk & Hp & _).
  apply described_cnn_inv in Hc. apply described_category_inv in Hk.
  split; [|split].
  - intros E. rewrite E in Hk. apply Hk.
  - intros E. rewrite E in Hc. destruct (Args.use_cls_embed a).
    + destruct Hc as (_ & _ & [= -> _ _]). reflexivity.
    + destruct Hc as (k & _ & _ & _ & [= -> _ _]). reflexivity.
  - intros E1 E2. rewrite Hp. unfold attn_pooling_described.
    rewrite E1, E2. reflexivity.
Qed.

Lemma called_layer_is_present (B : Backend T) (self : NewsEncoder)
      (title_encoding title_attn_mask : Tensor)
      (sapo_encoding sapo_attn_mask category_encoding : option Tensor)
      (w w' : World B) (out : Tensor) (tr : list CallEvent) (name : string) :
  run B (forward self title_encoding title_attn_mask
                 sapo_encoding sapo_attn_mask category_encoding) w
  = (OK out, w', tr) ->
  In name (forward_calls self) ->
  exists m, In (name, m) (named_children self).
Proof.
  intros Hrun Hin.
  destruct (forward_calls_within B self title_encoding title_attn_mask
                                 sapo_encoding sapo_attn_mask
                                 category_encoding w)
    as (_ & Hreg & Hnames).
  rewrite Hrun in Hreg. cbn in Hreg.
  rewrite <- (Hnames out w' tr Hrun) in Hin.
  apply in_map_iff in Hin. destruct Hin as (ev & <- & Hev).
  rewrite Forall_forall in Hreg. exists (ev_module ev). exact (Hreg ev Hev).
Qed.

Ltac absent_layer H :=
  apply in_named_children_inv in H;
  repeat match goal with
         | H : _ \/ _ |- _ => destruct H as [H | H]
         end;
  destruct H as (E & H); try discriminate E; cbn in H; congruence.

(** X8.  A pathway that was off when the encoder was built cannot be
    switched on by setting the flag afterwards: with [use_category] set
    on an encoder built without it, no run of [forward] returns, the
    layers are not there; likewise with [use_sapo] set on an encoder
    built without it, unless it was built with both [use_cls_embed] and
    [use_category]. *)
Theorem pathway_switched_on_never_returns
        (a : Args.t) (self : NewsEncoder) (B : Backend T)
        (title_encoding title_attn_mask : Tensor)
        (sapo_encoding sapo_attn_mask category_encoding : option Tensor)
        (w w' : World B) (out : Tensor) (tr : list CallEvent) :
  __init__ a = OK self ->
  (Args.use_category a = false ->
   run B (forward (set_use_category self true) title_encoding title_attn_mask
                  sapo_encoding sapo_attn_mask category_encoding) w
   <> (OK out, w', tr))
  /\ (Args.use_sapo a = false ->
      Args.use_cls_embed a = false \/ Args.use_category a = false ->
      run B (forward (set_use_sapo self true) title_encoding title_attn_mask
                     sapo_encoding sapo_attn_mask category_encoding) w
      <> (OK out, w', tr)).
Proof.
  intros Hinit.
  destruct (init_absent_layers a self Hinit) as (Hcat & Hsapo & Hpool).
  destruct (init_flags a self Hinit) as (_ & Hcls & Hs & Hc & _).
  split.
  - intros Hoff Hrun.
    destruct (called_layer_is_present B _ _ _ _ _ _ _ _ _ _
                                      "category_embedding"%string Hrun)
      as (m & Hm).
    + unfold forward_calls, text_calls. cbn.
      destruct (apply_reduce_dim self), (use_cls_embed self), (use_sapo self);
        cbn; tauto.
    + specialize (Hcat Hoff). absent_layer Hm.
  - intros Hoff [Hcnn | Hnocat] Hrun.
    + destruct (called_layer_is_present B _ _ _ _ _ _ _ _ _ _
                                        "sapo_cnn"%string Hrun)
        as (m & Hm).
      * unfold forward_calls, text_calls. cbn. rewrite Hcls, Hcnn.
        destruct (apply_reduce_dim self), (use_category self); cbn; tauto.
      * specialize (Hsapo Hoff). absent_layer Hm.
    + destruct (called_layer_is_present B _ _ _ _ _ _ _ _ _ _
                                        "attn_pooling"%string Hrun)
        as (m & Hm).
      * unfold forward_calls, text_calls. cbn. rewrite Hc, Hnocat.
        destruct (apply_reduce_dim self), (use_cls_embed self); cbn; tauto.
      * specialize (Hpool Hoff Hnocat). absent_layer Hm.
Qed.
End FlagsChanged.

Section FlagsCleared.
Context {T : Torch} {TL : TorchLaws T} {C : Constructors T}
        (B : Backend T) {BL : BackendLaws B}.

Lemma consistent_set_use_sapo_false (self : NewsEncoder) :
  consistent self -> consistent (set_use_sapo self false).
Proof.
  intros (config & word_dim & Hrob & Hred & Hcnn & Hcat & Hpool).
  exists config, word_dim. cbn.
  split; [exact Hrob|]. split; [exact Hred|]. split; [|split].
  - destruct (use_cls_embed self); [exact Hcnn|].
    split; [apply Hcnn | discriminate].
  - exact Hcat.
  - intros E. apply Hpool. rewrite E. apply orb_true_r.
Qed.

Lemma consistent_set_use_category_false (self : NewsEncoder) :
  consistent self -> consistent (set_use_category self false).
Proof.
  intros (config & word_dim & Hrob & Hred & Hcnn & Hcat & Hpool).
  exists config, word_dim. cbn.
  split; [exact Hrob|]. split; [exact Hred|]. split; [|split].
  - exact Hcnn.
  - discriminate.
  - rewrite orb_false_r. intros E. apply Hpool. rewrite E. reflexivity.
Qed.

(** X9.  A pathway can be switched off after construction: with
    [use_sapo] or [use_category] cleared on a built encoder whose layers
    have positive sizes, [forward] still returns on every batch, not
    empty, that is valid for the remaining pathways, and the output
    keeps the shape [(batch_size, embed_dim)]. *)
Theorem pathway_switched_off_still_returns
        (a : Args.t) (self : NewsEncoder) (batch_size : Z)
        (title_encoding title_attn_mask : Tensor)
        (sapo_encoding sapo_attn_mask category_encoding : option Tensor)
        (w : World B) :
  __init__ a = OK self ->
  well_sized_layers self ->
  (valid_batch B (set_use_sapo self false) batch_size
               title_encoding title_attn_mask
               sapo_encoding sapo_attn_mask category_encoding ->
   exists out w' tr,
     run B (forward (set_use_sapo self false) title_encoding title_attn_mask
                    sapo_encoding sapo_attn_mask category_encoding) w
     = (OK out, w', tr)
     /\ shape out = [batch_size; embed_dim self])
  /\ (valid_batch B (set_use_category self false) batch_size
                  title_encoding title_attn_mask
                  sapo_encoding sapo_attn_mask category_encoding ->
      exists out w' tr,
        run B (forward (set_use_category self false)
                       title_encoding title_attn_mask
                       sapo_encoding sapo_attn_mask category_encoding) w
        = (OK out, w', tr)
        /\ shape out = [batch_size; embed_dim self]).
Proof.
  intros Hinit Hsized.
  pose proof (init_consistent a self Hinit) as Hcons.
  pose proof (init_usable_layers a self Hinit Hsized) as Hu.
  split; intros Hvalid.
  - exact (forward_returns B _ batch_size _ _ _ _ _ w
                           (consistent_set_use_sapo_false self Hcons)
                           (fun name m Hin => Hu name m Hin) Hvalid).
  - exact (forward_returns B _ batch_size _ _ _ _ _ w
                           (consistent_set_use_category_false self Hcons)
                           (fun name m Hin => Hu name m Hin) Hvalid).
Qed.
End FlagsCleared.

(** ** The shape backend raises no [AttributeError] *)
(** ** The shape library raises no [AttributeError] *)

Section ShapesSafe.
Import Shapes.

Lemma on_last_dim_not_AttributeError (i o : Z) (x : tensor) :
  on_last_dim i o x <> Raised AttributeError.
Proof.
  unfold on_last_dim. destruct (rev x) as [|last front]; [discriminate|].
  destruct ((Z.of_N last =? i) && (0 <=? o)); discriminate.
Qed.

Lemma run_layer_not_AttributeError (m : @nnModule torch)
      (args : list (option tensor)) :
  run_layer m args <> Raised AttributeError.
Proof.
  unfold run_layer.
  repeat match goal with
         | |- context [match ?x with _ => _ end] => destruct x
         end;
    try discriminate; apply on_last_dim_not_AttributeError.
Qed.

Lemma shapes_no_AttributeError_inside : no_AttributeError_inside backend.
Proof.
  unfold no_AttributeError_inside. cbn. repeat split.
  - intros t. unfold shape_select_first.
    repeat match goal with
           | |- context [match ?x with _ => _ end] => destruct x
           end; discriminate.
  - intros t. unfold shape_transpose_1_2.
    repeat match goal with
           | |- context [match ?x with _ => _ end] => destruct x
           end; discriminate.
  - intros ts. unfold shape_stack_dim1.
    repeat match goal with
           | |- context [match ?x with _ => _ end] => destruct x
           end; discriminate.
  - intros _ m args _. apply run_layer_not_AttributeError.
Qed.
End ShapesSafe.

(** ** One language model for both texts *)

Section SharedLanguageModel.
Context {T : Torch} (B : Backend T).

Lemma count_calls_map (attr : string) (tr : list CallEvent) :
  count_calls attr tr
  = List.length (filter (fun name => String.eqb name attr) (map ev_attr tr)).
Proof.
  unfold count_calls. induction tr as [|ev tr IH]; [reflexivity|].
  cbn. destruct (String.eqb (ev_attr ev) attr); cbn; rewrite IH; reflexivity.
Qed.

(** X10.  The title and the sapo go through one and the same language
    model: in a run of [forward] that returns, [self.roberta] is called
    once without [use_sapo] and twice with it, and every call under the
    attribute [roberta] is to that one layer. *)
Theorem language_model_runs_once_per_text
        (self : NewsEncoder) (title_encoding title_attn_mask : Tensor)
        (sapo_encoding sapo_attn_mask category_encoding : option Tensor)
        (w w' : World B) (out : Tensor) (tr : list CallEvent) :
  run B (forward self title_encoding title_attn_mask
                 sapo_encoding sapo_attn_mask category_encoding) w
  = (OK out, w', tr) ->
  count_calls "roberta" tr = (if use_sapo self then 2%nat else 1%nat)
  /\ forall ev,
      In ev tr -> ev_attr ev = "roberta"%string -> ev_module ev = roberta self.
Proof.
  intros Hrun.
  destruct (forward_calls_within B self title_encoding title_attn_mask
                                 sapo_encoding sapo_attn_mask
                                 category_encoding w)
    as (_ & Hreg & Hnames).
  rewrite Hrun in Hreg. cbn in Hreg. specialize (Hnames out w' tr Hrun).
  split.
  - rewrite count_calls_map, Hnames. unfold forward_calls, text_calls.
    destruct (apply_reduce_dim self), (use_cls_embed self), (use_sapo self),
      (use_category self); reflexivity.
  - intros ev Hev Hattr. rewrite Forall_forall in Hreg.
    specialize (Hreg ev Hev). unfold registered in Hreg. rewrite Hattr in Hreg.
    apply in_named_children_inv in Hreg.
    repeat match goal with
           | H : _ \/ _ |- _ => destruct H as [H | H]
           end;
      destruct Hreg as (E & Hm); try discriminate E; congruence.
Qed.
End SharedLanguageModel.

(** ** More properties on the batch of four articles *)

Section MoreExamples.
Import Shapes.
Local Existing Instance constructors.

Ltac positive_sizes :=
  let name := fresh "name" in
  let m := fresh "m" in
  let Hin := fresh "Hin" in
  intros name m Hin; cbn in Hin;
  repeat (destruct Hin as [Hin | Hin];
          [injection Hin as <- <-; cbn; repeat split;
           try (exists 18, 100; repeat split)|]);
  destruct Hin.

Lemma init_embed_dim_witness :
  exists self,
    __init__ (args true false true true) = OK self
    /\ embed_dim self = 128
    /\ expected_embed_dim (args true false true true) = Some (embed_dim self).
Proof.
  eexists. split; [reflexivity|]. split; [reflexivity|].
  exact (@init_embed_dim torch constructors (args true false true true) _
                         eq_refl).
Defined.

Lemma init_returns_iff_witness :
  ~ violates_reduce_dim (args true false true true)
  /\ ~ violates_cnn (args true false true true)
  /\ (Args.use_category (args true false true true) = true ->
      category_args_usable (args true false true true))
  /\ library_accepts (args true false true true)
  /\ exists self, __init__ (args true false true true) = OK self.
Proof.
  assert (H1 : ~ violates_reduce_dim (args true false true true))
    by (intros (_ & H); discriminate H).
  assert (H2 : ~ violates_cnn (args true false true true))
    by (intros (_ & [H | H]); discriminate H).
  assert (H3 : Args.use_category (args true false true true) = true ->
               category_args_usable (args true false true true))
    by (intros _; split; discriminate).
  assert (H4 : library_accepts (args true false true true)).
  { intros self H. injection H as <-.
    split; [reflexivity|]. split; [|reflexivity].
    intros m Hm. cbn in Hm.
    repeat (destruct Hm as [<- | Hm]; [reflexivity|]). destruct Hm. }
  repeat (split; [assumption|]).
  apply (@init_returns_iff torch constructors (args true false true true)).
  auto.
Defined.

Lemma init_reads_active_arguments_only_witness :
  args_agree (args false true false false) bare_args
  /\ __init__ (args false true false false) = __init__ bare_args.
Proof.
  assert (H : args_agree (args false true false false) bare_args).
  { unfold args_agree. cbn. intuition congruence. }
  split; [exact H|].
  exact (@init_reads_active_arguments_only torch constructors _ _ H).
Defined.

Lemma built_layers_are_the_called_layers_witness :
  exists self out w' tr,
    __init__ (args true false false true) = OK self
    /\ run backend (forward self title_encoding title_attn_mask
                            None None (Some category_encoding)) 0%nat
       = (OK out, w', tr)
    /\ map fst (named_children self) = map ev_attr tr
    /\ forall name m,
        In (name, m) (named_children self)
        <-> exists ev, In ev tr /\ ev_attr ev = name /\ ev_module ev = m.
Proof.
  do 4 eexists. split; [reflexivity|]. split; [vm_compute; reflexivity|].
  split; [reflexivity|].
  exact (@built_layers_are_the_called_layers
           torch constructors backend (args true false false true) _
           title_encoding title_attn_mask None None (Some category_encoding)
           0%nat _ _ _ eq_refl eq_refl).
Defined.

Lemma forward_never_misses_a_layer_witness :
  no_AttributeError_inside backend
  /\ exists self,
      __init__ (args true false true true) = OK self
      /\ fst (fst (run backend (forward self title_encoding title_attn_mask
                                        None None None) 0%nat))
         = Raised ValueError
      /\ forall w' tr,
          run backend (forward self title_encoding title_attn_mask
                               None None None) 0%nat
          <> (Raised AttributeError, w', tr).
Proof.
  split; [exact shapes_no_AttributeError_inside|].
  eexists. split; [reflexivity|]. split; [vm_compute; reflexivity|].
  intros w' tr.
  exact (@forward_never_misses_a_layer
           torch constructors backend shapes_no_AttributeError_inside
           (args true false true true) _
           title_encoding title_attn_mask None None None 0%nat w' tr eq_refl).
Defined.

Lemma pooling_attends_to_every_component_witness :
  exists self out w' tr,
    __init__ (args false false true true) = OK self
    /\ run backend (forward self title_encoding title_attn_mask
                            (Some sapo_encoding) (Some sapo_attn_mask)
                            (Some category_encoding)) 0%nat
       = (OK out, w', tr)
    /\ num_components self = 3
    /\ exists title_repr sapo_repr category_repr stacked m tr0,
        stack_dim1 [title_repr; sapo_repr; category_repr] = OK stacked
        /\ shape stacked = [4; num_components self; embed_dim self]
        /\ attn_pooling self = Some m
        /\ tr = tr0
                ++ [called "attn_pooling" m
                           [Some stacked;
                            Some (ones_bool 4 (num_components self))]
                           out].
Proof.
  do 4 eexists. split; [reflexivity|]. split; [vm_compute; reflexivity|].
  split; [reflexivity|].
  match goal with
  | |- context [num_components ?self] =>
      edestruct (@pooling_attends_to_every_component
                   torch torch_laws constructors backend backend_laws
                   (args false false true true) self 4
                   title_encoding title_attn_mask
                   (Some sapo_encoding) (Some sapo_attn_mask)
                   (Some category_encoding) 0%nat)
        as (title_repr & w1 & tr1 & sapo_reprs & w2 & tr2 & category_reprs
            & w3 & tr3 & stacked & m & _ & Hs & Hc & _ & _ & Hst & Hshape
            & Hm & _ & Htr)
  end.
  - reflexivity.
  - positive_sizes.
  - unfold valid_batch, valid_text. cbn.
    split; [reflexivity|].
    split; [exists 32; repeat split|].
    split; [intros _; exists 64; repeat split | repeat split].
  - reflexivity.
  - vm_compute. reflexivity.
  - destruct Hs as (sapo_repr & _ & ->). destruct Hc as (category_repr & _ & ->).
    exists title_repr, sapo_repr, category_repr, stacked, m, (tr1 ++ tr2 ++ tr3).
    auto.
Defined.

Lemma pathway_switched_on_never_returns_witness :
  exists self,
    __init__ (args false true false false) = OK self
    /\ fst (fst (run backend
                     (forward (set_use_sapo self true)
                              title_encoding title_attn_mask
                              (Some sapo_encoding) (Some sapo_attn_mask)
                              None) 0%nat))
       = Raised AttributeError
    /\ forall out w' tr,
        run backend (forward (set_use_sapo self true)
                             title_encoding title_attn_mask
                             (Some sapo_encoding) (Some sapo_attn_mask)
                             None) 0%nat
        <> (OK out, w', tr).
Proof.
  eexists. split; [reflexivity|]. split; [vm_compute; reflexivity|].
  intros out w' tr.
  refine (proj2 (@pathway_switched_on_never_returns
                   torch constructors (args false true false false) _ backend
                   title_encoding title_attn_mask
                   (Some sapo_encoding) (Some sapo_attn_mask) None
                   0%nat w' out tr eq_refl) eq_refl (or_intror eq_refl)).
Defined.

Lemma pathway_switched_off_still_returns_witness :
  exists self,
    __init__ (args false false true true) = OK self
    /\ exists out w' tr,
        run backend (forward (set_use_sapo self false)
                             title_encoding title_attn_mask
                             None None (Some category_encoding)) 0%nat
        = (OK out, w', tr)
        /\ shape out = [4; embed_dim self].
Proof.
  eexists. split; [reflexivity|].
  refine (proj1 (@pathway_switched_off_still_returns
                   torch torch_laws constructors backend backend_laws
                   (args false false true true) _ 4
                   title_encoding title_attn_mask
                   None None (Some category_encoding) 0%nat eq_refl _) _).
  - positive_sizes.
  - unfold valid_batch, valid_text. cbn.
    split; [reflexivity|].
    split; [exists 32; repeat split|].
    split; [intros E; discriminate E | repeat split].
Defined.

Lemma language_model_runs_once_per_text_witness :
  exists self out w' tr,
    __init__ (args true true true false) = OK self
    /\ run backend (forward self title_encoding title_attn_mask
                            (Some sapo_encoding) (Some sapo_attn_mask)
                            None) 0%nat
       = (OK out, w', tr)
    /\ use_sapo self = true
    /\ count_calls "roberta" tr = (if use_sapo self then 2%nat else 1%nat).
Proof.
  do 4 eexists. split; [reflexivity|]. split; [vm_compute; reflexivity|].
  split; [reflexivity|].
  match goal with
  | |- count_calls _ _ = (if use_sapo ?self then _ else _) =>
      exact (proj1 (@language_model_runs_once_per_text
                      torch backend self title_encoding title_attn_mask
                      (Some sapo_encoding) (Some sapo_attn_mask) None
                      0%nat _ _ _ eq_refl))
  end.
Defined.
End MoreExamples.
